(** * SSHClient: a [with]-statement wrapper around paramiko

    Shallow embedding of [client.py].  Every method of the wrapper is a
    call-through to the paramiko library, so a method is embedded as the
    tree of library calls it issues: a node is one call, its children are
    indexed by what the library answers (a value or a raised exception).
    A tree is run against a transport, a function that answers the calls
    over a state of its own; the run records the calls in the order they
    are made. *)

From Stdlib Require Import String Ascii List Bool Arith Lia.
From stdpp Require Import base option list strings gmap.

Local Open Scope string_scope.
Local Open Scope list_scope.

(** ** Python values the wrapper handles *)

(** Identities of the library objects the wrapper holds. *)
Definition client := nat.    (* paramiko.SSHClient *)
Definition sftp := nat.      (* paramiko.SFTPClient *)
Definition rfile := nat.     (* paramiko.SFTPFile *)
Definition stream := nat.    (* paramiko.ChannelFile *)
Definition callback := nat.  (* a Python callable, by identity *)

(** What [upload] may receive as [local_path]: a path, an object of the
    builtin type [file], or any other object (a [StringIO], say). *)
Inductive pyobj : Type :=
| PyStr (s : string)
| PyFile (fd : nat)
| PyOther (id : nat).

(** paramiko.SFTPAttributes, as far as the transfer result goes. *)
Record SFTPAttributes : Type := mkAttrs {
  st_size : nat;
  st_mtime : nat;
  st_mode : nat
}.

(** The missing-host-key policies of paramiko. *)
Inductive policy : Type := RejectPolicy | WarningPolicy | AutoAddPolicy.

(** Exceptions: the ones the interpreter raises for the wrapper's own
    expressions, and the ones the library raises. *)
Inductive exn : Type :=
| AttributeError (obj attr : string)
| NameError (name : string)
| IndexError (msg : string)
| AuthenticationException
| SSHException (msg : string)
| SocketError (msg : string)
| IOError (msg : string)
| UserError (msg : string).

Inductive result (A : Type) : Type :=
| Ok (a : A)
| Err (e : exn).
Arguments Ok {A} a.
Arguments Err {A} e.

(** The interpreter the script runs on.  The only difference that matters
    to this file: the builtin name [file] is bound in Python 2 only. *)
Inductive python : Type := Python2 | Python3.

Inductive pytype : Type := TFile.

Definition builtin_file (py : python) : option pytype :=
  match py with
  | Python2 => Some TFile
  | Python3 => None
  end.

Definition isinstance (o : pyobj) (t : pytype) : bool :=
  match t, o with
  | TFile, PyFile _ => true
  | TFile, _ => false
  end.

(** ** Calls into paramiko

    One constructor per library entry point the wrapper uses, indexed by
    the type of the answer.  [exec_command] answers the triple
    (stdin, stdout, stderr).  [ShutdownWrite] (channel end-of-input) is
    part of the library but no method of the wrapper calls it. *)
Inductive call : Type -> Type :=
| NewClient : call client
| LoadSystemHostKeys (c : client) : call unit
| SetMissingHostKeyPolicy (c : client) (p : policy) : call unit
| Connect (c : client) (host username password : string) (port : nat) : call unit
| ClientClose (c : client) : call unit
| OpenSftp (c : client) : call sftp
| SftpClose (s : sftp) : call unit
| SftpPut (s : sftp) (localpath : pyobj) (remotepath : string)
          (cb : option callback) (confirm : bool) : call SFTPAttributes
| SftpPutfo (s : sftp) (fl : pyobj) (remotepath : string)
            (cb : option callback) (confirm : bool) : call SFTPAttributes
| SftpGet (s : sftp) (remotepath localpath : string)
          (cb : option callback) : call (option SFTPAttributes)
| SftpFile (s : sftp) (path mode : string) (bufsize : Z) : call rfile
| FileWrite (f : rfile) (data : string) : call unit
| FileRead (f : rfile) : call string
| FileClose (f : rfile) : call unit
| ExecCommand (c : client) (command : string) : call (stream * stream * stream)
| StreamWrite (s : stream) (data : string) : call unit
| StreamFlush (s : stream) : call unit
| StreamRead (s : stream) : call string
| ShutdownWrite (s : stream) : call unit.

Inductive event : Type :=
| Ev {X : Type} (c : call X).

Definition exec_stdin (t : stream * stream * stream) : stream := fst (fst t).
Definition exec_stdout (t : stream * stream * stream) : stream := snd (fst t).
Definition exec_stderr (t : stream * stream * stream) : stream := snd t.

(** ** Programs over the library *)

Inductive prog (A : Type) : Type :=
| Ret (a : A)
| Do {X : Type} (c : call X) (k : result X -> prog A).
Arguments Ret {A} a.
Arguments Do {A X} c k.

Fixpoint pbind {A B : Type} (p : prog A) (f : A -> prog B) : prog B :=
  match p with
  | Ret a => f a
  | Do c k => Do c (fun r => pbind (k r) f)
  end.

(** A transport answers every call over its own state. *)
Definition transport (W : Type) : Type :=
  forall X : Type, call X -> W -> W * result X.

Fixpoint run {W A : Type} (lib : transport W) (p : prog A) (w : W)
  : W * list event * A :=
  match p with
  | Ret a => (w, [], a)
  | Do c k =>
      let '(w1, r) := lib _ c w in
      let '(w2, t, a) := run lib (k r) w1 in
      (w2, Ev c :: t, a)
  end.

Definition final_state {W A : Type} (x : W * list event * A) : W := fst (fst x).
Definition trace {W A : Type} (x : W * list event * A) : list event := snd (fst x).
Definition outcome {W A : Type} (x : W * list event * A) : A := snd x.

(** ** The wrapper object *)

Record login : Type := mkLogin {
  host : string;
  username : string;
  password : string;
  port : nat
}.

(** The two attributes [__init__] sets: [self.__login_info], [self.ssh]. *)
Record SSHClient : Type := mkSSHClient {
  login_info : login;
  ssh : option client
}.

(** A method: the object's state in, the calls it makes, then the state
    out together with the value returned or the exception raised. *)
Definition M (A : Type) : Type := SSHClient -> prog (SSHClient * result A).

Definition ret {A : Type} (a : A) : M A := fun self => Ret (self, Ok a).

Definition raise {A : Type} (e : exn) : M A := fun self => Ret (self, Err e).

Definition bind {A B : Type} (m : M A) (f : A -> M B) : M B :=
  fun self =>
    pbind (m self) (fun sr =>
      match snd sr with
      | Ok a => f a (fst sr)
      | Err e => Ret (fst sr, Err e)
      end).

#[export] Instance M_ret : MRet M := @ret.
#[export] Instance M_bind : MBind M := fun A B f m => bind m f.

(** A library call; what the library raises propagates. *)
Definition libcall {X : Type} (c : call X) : M X :=
  fun self => Do c (fun r => Ret (self, r)).

(** [try: body finally: fin], with Python's rule that an exception of
    [fin] replaces the outcome of [body]. *)
Definition try_finally {A : Type} (body : M A) (fin : M unit) : M A :=
  fun self =>
    pbind (body self) (fun sr =>
      pbind (fin (fst sr)) (fun sr' =>
        match snd sr' with
        | Ok _ => Ret (fst sr', snd sr)
        | Err e => Ret (fst sr', Err e)
        end)).

(** [with x: body] for a library object [x]: paramiko's SFTPClient and
    SFTPFile are closing context managers, [__enter__] answers the object
    itself and [__exit__] calls its [close()] and answers None. *)
Definition with_closing {A : Type} (close : M unit) (body : M A) : M A :=
  try_finally body close.

(** The attribute [self.ssh.<attr>]: on None the lookup raises. *)
Definition ssh_attr (attr : string) : M client :=
  fun self =>
    match ssh self with
    | Some c => Ret (self, Ok c)
    | None => Ret (self, Err (AttributeError "NoneType" attr))
    end.

Definition nl : string := String (ascii_of_nat 10) EmptyString.

(** [sep.join(l)] *)
Definition join (sep : string) (l : list string) : string := String.concat sep l.

(** ** The methods of [SSHClient] *)

Definition __init__ (host username password : string) (port : nat) : SSHClient :=
  {| login_info := mkLogin host username password port; ssh := None |}.

Definition set_ssh (c : client) : M unit :=
  fun self => Ret ({| login_info := login_info self; ssh := Some c |}, Ok tt).

Definition get_login_info : M login :=
  fun self => Ret (self, Ok (login_info self)).

Definition upload (py : python) (local_path : pyobj) (remote_path : string)
    (cb : option callback) (confirm : bool) : M SFTPAttributes :=
  c ← ssh_attr "open_sftp";
  s ← libcall (OpenSftp c);
  with_closing (libcall (SftpClose s))
    (match builtin_file py with
     | None => raise (NameError "file")
     | Some t =>
         if isinstance local_path t
         then libcall (SftpPutfo s local_path remote_path cb confirm)
         else libcall (SftpPut s local_path remote_path cb confirm)
     end).

Definition write (data remote_path : string) (mode : string) (bufsize : Z) : M unit :=
  c ← ssh_attr "open_sftp";
  s ← libcall (OpenSftp c);
  with_closing (libcall (SftpClose s))
    (fp ← libcall (SftpFile s remote_path mode bufsize);
     with_closing (libcall (FileClose fp))
       (libcall (FileWrite fp data))).

Definition download (remote_path local_path : string)
    (cb : option callback) (confirm : bool) : M (option SFTPAttributes) :=
  c ← ssh_attr "open_sftp";
  s ← libcall (OpenSftp c);
  with_closing (libcall (SftpClose s))
    (libcall (SftpGet s remote_path local_path None)).

Definition read (remote_path : string) (mode : string) (bufsize : Z) : M string :=
  c ← ssh_attr "open_sftp";
  s ← libcall (OpenSftp c);
  data ← with_closing (libcall (SftpClose s))
    (fp ← libcall (SftpFile s remote_path mode bufsize);
     with_closing (libcall (FileClose fp))
       (libcall (FileRead fp)));
  mret data.

Definition exec_command (command : string) : M (string * string) :=
  c ← ssh_attr "exec_command";
  t ← libcall (ExecCommand c command);
  let '(_, stdin, stderr) := t in
  out ← libcall (StreamRead stdin);
  err ← libcall (StreamRead stderr);
  mret (out, err).

(** [commands[0]] *)
Definition first_item (commands : list string) : M string :=
  match commands with
  | c0 :: _ => mret c0
  | [] => raise (IndexError "list index out of range")
  end.

Definition exec_commands (commands : list string) : M (string * string) :=
  c ← ssh_attr "exec_command";
  c0 ← first_item commands;
  t ← libcall (ExecCommand c c0);
  let '(stdin, stdout, stderr) := t in
  libcall (StreamWrite stdin (join nl (drop 1 commands) +:+ nl));;
  libcall (StreamWrite stdin ("exit" +:+ nl));;
  libcall (StreamFlush stdin);;
  out ← libcall (StreamRead stdout);
  err ← libcall (StreamRead stderr);
  mret (out, err).

Definition close : M unit :=
  c ← ssh_attr "close";
  libcall (ClientClose c).

(** [__enter__] answers [self]; the object is the state of [M]. *)
Definition __enter__ : M unit :=
  c ← libcall NewClient;
  set_ssh c;;
  c1 ← ssh_attr "load_system_host_keys";
  libcall (LoadSystemHostKeys c1);;
  c2 ← ssh_attr "set_missing_host_key_policy";
  libcall (SetMissingHostKeyPolicy c2 AutoAddPolicy);;
  c3 ← ssh_attr "connect";
  info ← get_login_info;
  libcall (Connect c3 (host info) (username info) (password info) (port info));;
  mret tt.

(** [__exit__] ignores what it is told about the exception and answers
    None. *)
Definition __exit__ (exc : option exn) : M unit :=
  close.

(** ** The [with] statement on the wrapper

    [with mgr as x: body]: [__enter__] runs first and, when it raises,
    nothing else runs.  Otherwise the body runs and then [__exit__],
    told of the exception of the body if there is one; [__exit__]
    answers None here, so that exception is raised again afterwards,
    unless [__exit__] raises one itself. *)
Definition exc_of {A : Type} (r : result A) : option exn :=
  match r with
  | Ok _ => None
  | Err e => Some e
  end.

Definition try_finally_exc {A : Type} (body : M A) (exit : option exn -> M unit)
  : M A :=
  fun self =>
    pbind (body self) (fun sb =>
      pbind (exit (exc_of (snd sb)) (fst sb)) (fun sx =>
        match snd sx with
        | Ok _ => Ret (fst sx, snd sb)
        | Err e => Ret (fst sx, Err e)
        end)).

Definition py_with {A : Type} (enter : M unit) (exit : option exn -> M unit)
    (body : M A) : M A :=
  fun self =>
    pbind (enter self) (fun sr =>
      match snd sr with
      | Err e => Ret (fst sr, Err e)
      | Ok _ => try_finally_exc body exit (fst sr)
      end).

(** [with SSHClient(host, username, password, port) as ssh: body] *)
Definition scope {A : Type} (host username password : string) (port : nat)
    (body : M A) : prog (SSHClient * result A) :=
  py_with __enter__ __exit__ body (__init__ host username password port).

(** The statements of a block that uses the client: the six transfer and
    command methods, and raising an error. *)
Inductive stmt : Type :=
| SUpload (local_path : pyobj) (remote_path : string)
          (cb : option callback) (confirm : bool)
| SWrite (data remote_path mode : string) (bufsize : Z)
| SDownload (remote_path local_path : string)
            (cb : option callback) (confirm : bool)
| SRead (remote_path mode : string) (bufsize : Z)
| SExecCommand (command : string)
| SExecCommands (commands : list string)
| SRaise (e : exn).

Definition exec_stmt (py : python) (s : stmt) : M unit :=
  match s with
  | SUpload l r cb cf => upload py l r cb cf;; mret tt
  | SWrite d r m b => write d r m b
  | SDownload r l cb cf => download r l cb cf;; mret tt
  | SRead r m b => read r m b;; mret tt
  | SExecCommand c => exec_command c;; mret tt
  | SExecCommands cs => exec_commands cs;; mret tt
  | SRaise e => raise e
  end.

Fixpoint exec_block (py : python) (b : list stmt) : M unit :=
  match b with
  | [] => mret tt
  | s :: b' => exec_stmt py s;; exec_block py b'
  end.

(** ** A transport to test against: an in-memory SSH server

    A stand-in for paramiko talking to a server, in the manner of a fake
    transport of a test suite: one account, a remote file system with its
    directories and a local one, SFTP files with paramiko's open modes
    and write buffering, and a remote shell that knows [echo] and [sh]. *)

Record handle : Type := mkHandle {
  h_path : string;
  h_readable : bool;
  h_writable : bool;
  h_append : bool;
  h_buffered : bool;
  h_pos : nat;
  h_pending : string
}.

Record fake : Type := mkFake {
  fk_host : string;
  fk_password : string;
  fk_next : nat;
  fk_connected : gset nat;
  fk_sftps : gset nat;
  fk_remote : gmap string string;
  fk_local : gmap string string;
  fk_fileobjs : gmap nat string;
  fk_files : gmap nat handle;
  fk_channels : gmap nat (string * string);
  fk_streams : gmap nat (nat * bool);
  fk_dirs : gset string
}.

Fixpoint contains (a : ascii) (s : string) : bool :=
  match s with
  | EmptyString => false
  | String b s' => Ascii.eqb a b || contains a s'
  end.

Definition take_str (n : nat) (s : string) : string := substring 0 n s.
Definition drop_str (n : nat) (s : string) : string :=
  substring n (String.length s - n) s.

(** Writing [data] at offset [pos] of [old]. *)
Definition overwrite (pos : nat) (data old : string) : string :=
  take_str pos old +:+ data +:+ drop_str (pos + String.length data) old.

Fixpoint split_lines (s cur : string) : list string :=
  match s with
  | EmptyString => if String.eqb cur "" then [] else [cur]
  | String a s' =>
      if Ascii.eqb a (ascii_of_nat 10)
      then cur :: split_lines s' ""
      else split_lines s' (cur +:+ String a EmptyString)
  end.

(** What one command prints: (stdout, stderr). *)
Definition shell (cmd : string) : string * string :=
  if String.prefix "echo " cmd
  then (drop_str 5 cmd +:+ nl, "")
  else if String.eqb cmd "" then ("", "")
  else ("", cmd +:+ ": command not found" +:+ nl).

Fixpoint sh (lines : list string) : string * string :=
  match lines with
  | [] => ("", "")
  | l :: rest =>
      if String.eqb l "exit" then ("", "")
      else (fst (shell l) +:+ fst (sh rest), snd (shell l) +:+ snd (sh rest))
  end.

Definition channel_output (ch : string * string) : string * string :=
  if String.eqb (fst ch) "sh" then sh (split_lines (snd ch) "")
  else shell (fst ch).

(** Pending data reaches the file: at the end of it for a handle opened
    for appending, at the handle's offset otherwise. *)
Definition flush_handle (h : handle) (fs : gmap string string)
  : handle * gmap string string :=
  if String.eqb (h_pending h) "" then (h, fs)
  else
    let old := default "" (fs !! h_path h) in
    let pos := if h_append h then String.length old else h_pos h in
    (mkHandle (h_path h) (h_readable h) (h_writable h) (h_append h)
       (h_buffered h) (pos + String.length (h_pending h)) "",
     <[h_path h := overwrite pos (h_pending h) old]> fs).

Definition set_next (n : nat) (w : fake) : fake :=
  mkFake (fk_host w) (fk_password w) n (fk_connected w) (fk_sftps w)
    (fk_remote w) (fk_local w) (fk_fileobjs w) (fk_files w)
    (fk_channels w) (fk_streams w) (fk_dirs w).

Definition set_connected (cs : gset nat) (w : fake) : fake :=
  mkFake (fk_host w) (fk_password w) (fk_next w) cs (fk_sftps w)
    (fk_remote w) (fk_local w) (fk_fileobjs w) (fk_files w)
    (fk_channels w) (fk_streams w) (fk_dirs w).

Definition set_sftps (ss : gset nat) (w : fake) : fake :=
  mkFake (fk_host w) (fk_password w) (fk_next w) (fk_connected w) ss
    (fk_remote w) (fk_local w) (fk_fileobjs w) (fk_files w)
    (fk_channels w) (fk_streams w) (fk_dirs w).

Definition set_remote (fs : gmap string string) (w : fake) : fake :=
  mkFake (fk_host w) (fk_password w) (fk_next w) (fk_connected w) (fk_sftps w)
    fs (fk_local w) (fk_fileobjs w) (fk_files w)
    (fk_channels w) (fk_streams w) (fk_dirs w).

Definition set_local (fs : gmap string string) (w : fake) : fake :=
  mkFake (fk_host w) (fk_password w) (fk_next w) (fk_connected w) (fk_sftps w)
    (fk_remote w) fs (fk_fileobjs w) (fk_files w)
    (fk_channels w) (fk_streams w) (fk_dirs w).

Definition set_files (hs : gmap nat handle) (w : fake) : fake :=
  mkFake (fk_host w) (fk_password w) (fk_next w) (fk_connected w) (fk_sftps w)
    (fk_remote w) (fk_local w) (fk_fileobjs w) hs
    (fk_channels w) (fk_streams w) (fk_dirs w).

Definition set_channels (cs : gmap nat (string * string)) (w : fake) : fake :=
  mkFake (fk_host w) (fk_password w) (fk_next w) (fk_connected w) (fk_sftps w)
    (fk_remote w) (fk_local w) (fk_fileobjs w) (fk_files w)
    cs (fk_streams w) (fk_dirs w).

Definition set_streams (ss : gmap nat (nat * bool)) (w : fake) : fake :=
  mkFake (fk_host w) (fk_password w) (fk_next w) (fk_connected w) (fk_sftps w)
    (fk_remote w) (fk_local w) (fk_fileobjs w) (fk_files w)
    (fk_channels w) ss (fk_dirs w).

Definition closed_sftp {A : Type} : result A := Err (SSHException "SFTP session is closed").
Definition closed_file {A : Type} : result A := Err (IOError "File is closed").

(** The directory part of a path: what stands before its last slash. *)
Fixpoint parent_dir_from (s seen best : string) : string :=
  match s with
  | EmptyString => best
  | String a s' =>
      if Ascii.eqb a "/"
      then parent_dir_from s' (seen +:+ "/") seen
      else parent_dir_from s' (seen +:+ String a EmptyString) best
  end.

Definition parent_dir (path : string) : string := parent_dir_from path "" "".

(** A file can be created at a path when its directory exists on the
    server; the root and the directory of a bare name always do. *)
Definition dir_exists (path : string) (w : fake) : bool :=
  String.eqb (parent_dir path) "" || bool_decide (parent_dir path ∈ fk_dirs w).

Definition fake_open (path mode : string) (bufsize : Z) (w : fake)
  : fake * result rfile :=
  let r := contains "r" mode in
  let p := contains "+" mode in
  let ww := contains "w" mode in
  let a := contains "a" mode in
  let x := contains "x" mode in
  let present := bool_decide (is_Some (fk_remote w !! path)) in
  if x && present then (w, Err (IOError "File exists"))
  else if negb (ww || a || x) && negb present
  then (w, Err (IOError "No such file"))
  else if negb present && negb (dir_exists path w)
  then (w, Err (IOError "No such file"))
  else
    let content := if ww then "" else default "" (fk_remote w !! path) in
    let h := mkHandle path (r || p) (ww || p || a) a (0 <? bufsize)%Z 0 "" in
    let f := fk_next w in
    (set_next (S f) (set_files (<[f := h]> (fk_files w))
       (set_remote (<[path := content]> (fk_remote w)) w)), Ok f).

Definition fake_write (f : rfile) (data : string) (w : fake) : fake * result unit :=
  match fk_files w !! f with
  | None => (w, closed_file)
  | Some h =>
      if negb (h_writable h) then (w, Err (IOError "File not open for writing"))
      else
        let h1 := mkHandle (h_path h) (h_readable h) (h_writable h) (h_append h)
                    (h_buffered h) (h_pos h) (h_pending h +:+ data) in
        if h_buffered h
        then (set_files (<[f := h1]> (fk_files w)) w, Ok tt)
        else
          let '(h2, fs) := flush_handle h1 (fk_remote w) in
          (set_files (<[f := h2]> (fk_files w)) (set_remote fs w), Ok tt)
  end.

Definition fake_read (f : rfile) (w : fake) : fake * result string :=
  match fk_files w !! f with
  | None => (w, closed_file)
  | Some h =>
      if negb (h_readable h) then (w, Err (IOError "File is not open for reading"))
      else
        let content := default "" (fk_remote w !! h_path h) in
        let h1 := mkHandle (h_path h) (h_readable h) (h_writable h) (h_append h)
                    (h_buffered h) (String.length content) (h_pending h) in
        (set_files (<[f := h1]> (fk_files w)) w, Ok (drop_str (h_pos h) content))
  end.

Definition fake_close_file (f : rfile) (w : fake) : fake * result unit :=
  match fk_files w !! f with
  | None => (w, Ok tt)
  | Some h =>
      let '(_, fs) := flush_handle h (fk_remote w) in
      (set_files (delete f (fk_files w)) (set_remote fs w), Ok tt)
  end.

Definition fake_put (content : option string) (remotepath : string)
    (confirm : bool) (w : fake) : fake * result SFTPAttributes :=
  match content with
  | None => (w, Err (IOError "No such file or directory"))
  | Some d =>
      if negb (bool_decide (is_Some (fk_remote w !! remotepath)))
         && negb (dir_exists remotepath w)
      then (w, Err (IOError "No such file"))
      else
        (set_remote (<[remotepath := d]> (fk_remote w)) w,
         Ok (if confirm then mkAttrs (String.length d) 0 420 else mkAttrs 0 0 0))
  end.

Definition fake_get (remotepath localpath : string) (w : fake)
  : fake * result (option SFTPAttributes) :=
  match fk_remote w !! remotepath with
  | None =>
      (set_local (<[localpath := ""]> (fk_local w)) w, Err (IOError "No such file"))
  | Some d => (set_local (<[localpath := d]> (fk_local w)) w, Ok None)
  end.

Definition fake_exec (command : string) (w : fake)
  : fake * result (stream * stream * stream) :=
  let i := fk_next w in
  (set_next (3 + i)
     (set_streams (<[S (S i) := (i, false)]> (<[S i := (i, true)]> (fk_streams w)))
        (set_channels (<[i := (command, "")]> (fk_channels w)) w)),
   Ok (i, S i, S (S i))).

Definition fake_stream_write (s : stream) (data : string) (w : fake)
  : fake * result unit :=
  match (fk_channels w !! s : option (string * string)) with
  | None => (w, Err (IOError "File not open for writing"))
  | Some ch =>
      (set_channels (<[s := (fst ch, snd ch +:+ data)]> (fk_channels w)) w, Ok tt)
  end.

Definition fake_stream_read (s : stream) (w : fake) : fake * result string :=
  match (fk_streams w !! s : option (nat * bool)) with
  | None => (w, Err (IOError "File not open for reading"))
  | Some st =>
      let out := channel_output (default ("", "") (fk_channels w !! fst st)) in
      (set_streams (delete s (fk_streams w)) w,
       Ok (if snd st then fst out else snd out))
  end.

(** Without a live connection paramiko's client has no transport object
    and the lookup of a method on it raises. *)
Definition no_transport {A : Type} (attr : string) : result A :=
  Err (AttributeError "NoneType" attr).

Definition fake_lib : transport fake :=
  fun X c =>
    match c in call X return fake -> fake * result X with
    | NewClient => fun w => (set_next (S (fk_next w)) w, Ok (fk_next w))
    | LoadSystemHostKeys _ => fun w => (w, Ok tt)
    | SetMissingHostKeyPolicy _ _ => fun w => (w, Ok tt)
    | Connect c h u p n => fun w =>
        if negb (String.eqb h (fk_host w))
        then (w, Err (SocketError "No route to host"))
        else if negb (String.eqb p (fk_password w))
        then (w, Err AuthenticationException)
        else (set_connected ({[c]} ∪ fk_connected w) w, Ok tt)
    | ClientClose c => fun w => (set_connected (fk_connected w ∖ {[c]}) w, Ok tt)
    | OpenSftp c => fun w =>
        if bool_decide (c ∈ fk_connected w)
        then (set_next (S (fk_next w))
                (set_sftps ({[fk_next w]} ∪ fk_sftps w) w), Ok (fk_next w))
        else (w, no_transport "open_sftp_client")
    | SftpClose s => fun w => (set_sftps (fk_sftps w ∖ {[s]}) w, Ok tt)
    | SftpPut s l r cb cf => fun w =>
        if negb (bool_decide (s ∈ fk_sftps w)) then (w, closed_sftp)
        else match l with
             | PyStr path => fake_put (fk_local w !! path) r cf w
             | _ => (w, Err (IOError "not a path"))
             end
    | SftpPutfo s l r cb cf => fun w =>
        if negb (bool_decide (s ∈ fk_sftps w)) then (w, closed_sftp)
        else match l with
             | PyFile fd => fake_put (fk_fileobjs w !! fd) r cf w
             | _ => (w, Err (AttributeError "object" "read"))
             end
    | SftpGet s r l cb => fun w =>
        if negb (bool_decide (s ∈ fk_sftps w)) then (w, closed_sftp)
        else fake_get r l w
    | SftpFile s path mode bufsize => fun w =>
        if negb (bool_decide (s ∈ fk_sftps w)) then (w, closed_sftp)
        else fake_open path mode bufsize w
    | FileWrite f data => fake_write f data
    | FileRead f => fake_read f
    | FileClose f => fake_close_file f
    | ExecCommand c command => fun w =>
        if bool_decide (c ∈ fk_connected w)
        then fake_exec command w
        else (w, no_transport "open_session")
    | StreamWrite s data => fake_stream_write s data
    | StreamFlush s => fun w => (w, Ok tt)
    | StreamRead s => fake_stream_read s
    | ShutdownWrite s => fun w => (w, Ok tt)
    end.

(** The server at rest: nobody connected, one remote and one local file,
    one local file object open, the remote directories [/etc] and
    [/tmp]. *)
Definition server : fake :=
  mkFake "example.org" "secret" 0 ∅ ∅
    {["/etc/motd" := "welcome"]} {["notes.txt" := "local notes"]}
    {[3 := "from an open file"]} ∅ ∅ ∅ ({["/etc"; "/tmp"]} : gset string).

(** A recording double that accepts every call and answers a default:
    its state is the number of calls answered so far. *)
Definition mock : transport nat :=
  fun X c =>
    match c in call X return nat -> nat * result X with
    | NewClient => fun n => (S n, Ok 7)
    | LoadSystemHostKeys _ => fun n => (S n, Ok tt)
    | SetMissingHostKeyPolicy _ _ => fun n => (S n, Ok tt)
    | Connect _ _ _ _ _ => fun n => (S n, Ok tt)
    | ClientClose _ => fun n => (S n, Ok tt)
    | OpenSftp _ => fun n => (S n, Ok 8)
    | SftpClose _ => fun n => (S n, Ok tt)
    | SftpPut _ _ _ _ _ => fun n => (S n, Ok (mkAttrs 0 0 0))
    | SftpPutfo _ _ _ _ _ => fun n => (S n, Ok (mkAttrs 0 0 0))
    | SftpGet _ _ _ _ => fun n => (S n, Ok None)
    | SftpFile _ _ _ _ => fun n => (S n, Ok 9)
    | FileWrite _ _ => fun n => (S n, Ok tt)
    | FileRead _ => fun n => (S n, Ok "")
    | FileClose _ => fun n => (S n, Ok tt)
    | ExecCommand _ _ => fun n => (S n, Ok (10, 11, 12))
    | StreamWrite _ _ => fun n => (S n, Ok tt)
    | StreamFlush _ => fun n => (S n, Ok tt)
    | StreamRead _ => fun n => (S n, Ok "")
    | ShutdownWrite _ => fun n => (S n, Ok tt)
    end.

(** A session on which the scope has been entered, and the server as it
    is then. *)
Definition session : SSHClient :=
  {| login_info := mkLogin "example.org" "root" "secret" 22; ssh := Some 0 |}.

Definition live : fake :=
  set_connected {[0]} (set_next 1 server).

(** ** Observations on a run *)

Definition is_connect (e : event) : bool :=
  match e with
  | Ev c => match c with Connect _ _ _ _ _ => true | _ => false end
  end.

Definition is_client_close (e : event) : bool :=
  match e with
  | Ev c => match c with ClientClose _ => true | _ => false end
  end.

Definition is_transfer (e : event) : bool :=
  match e with
  | Ev c => match c with
            | SftpPut _ _ _ _ _ | SftpPutfo _ _ _ _ _ => true
            | _ => false
            end
  end.

Definition is_end_of_input (e : event) : bool :=
  match e with
  | Ev c => match c with ShutdownWrite _ => true | _ => false end
  end.

(** The calls that open and close the connection; no transfer or
    command method makes one. *)
Definition lifecycle (e : event) : bool :=
  match e with
  | Ev c => match c with
            | NewClient | Connect _ _ _ _ _ | ClientClose _ => true
            | _ => false
            end
  end.

Definition count (f : event -> bool) (t : list event) : nat :=
  length (filter (fun e => f e = true) t).

(** The calls of [__enter__] on the client [c]. *)
Definition enter_calls (c : client) (h u p : string) (n : nat) : list event :=
  [Ev NewClient; Ev (LoadSystemHostKeys c);
   Ev (SetMissingHostKeyPolicy c AutoAddPolicy); Ev (Connect c h u p n)].

(** The connection parameters are valid for a transport in a state when
    [__enter__] returns there. *)
Definition enter_succeeds {W : Type} (lib : transport W) (w : W)
    (h u p : string) (n : nat) : Prop :=
  exists self, outcome (run lib (__enter__ (__init__ h u p n)) w) = (self, Ok tt).

(** Every call of a tree satisfies [P] and every leaf satisfies [Q]. *)
Fixpoint tree_ok {A : Type} (P : event -> Prop) (Q : A -> Prop) (p : prog A)
  : Prop :=
  match p with
  | Ret a => Q a
  | Do c k => P (Ev c) /\ forall r, tree_ok P Q (k r)
  end.

(** A method that makes no call on the connection's life cycle and leaves
    the object as it found it. *)
Definition quiet {A : Type} (m : M A) : Prop :=
  forall self,
    tree_ok (fun e => lifecycle e = false) (fun sr => fst sr = self) (m self).

(** The put a local source calls for: the stream put for an object of
    the builtin type [file], the path put for anything else. *)
Definition put_call (s : sftp) (local_path : pyobj) (remote_path : string)
    (cb : option callback) (confirm : bool) : call SFTPAttributes :=
  match local_path with
  | PyFile _ => SftpPutfo s local_path remote_path cb confirm
  | _ => SftpPut s local_path remote_path cb confirm
  end.

(** The commands as lines, each ended by a newline. *)
Definition lines_of (commands : list string) : string :=
  String.concat "" (map (fun c => c +:+ nl) commands).

(** End of input is signalled on a channel in the course of a run. *)
Definition signals_end_of_input (t : list event) : Prop :=
  Exists (fun e => is_end_of_input e = true) t.

(** A [get] that is handed a progress callback. *)
Definition passes_callback (e : event) : bool :=
  match e with
  | Ev c => match c with SftpGet _ _ _ (Some _) => true | _ => false end
  end.

(** The transfer and command operations among the statements. *)
Definition is_operation (s : stmt) : bool :=
  match s with
  | SRaise _ => false
  | _ => true
  end.

(** Open modes as paramiko reads them, by the letters they contain: a
    write mode that truncates, and a read mode that leaves the file as it
    is and starts at its beginning. *)
Definition truncating_write (mode : string) : bool :=
  contains "w" mode && negb (contains "x" mode).

Definition plain_read (mode : string) : bool :=
  (contains "r" mode || contains "+" mode)
  && negb (contains "w" mode || contains "a" mode || contains "x" mode).

Definition matching_modes (wmode rmode : string) : bool :=
  truncating_write wmode && plain_read rmode.

(** [with self as ssh: body] on an object that exists already. *)
Definition scope_on {A : Type} (self : SSHClient) (body : M A)
  : prog (SSHClient * result A) :=
  py_with __enter__ __exit__ body self.

(** A call that touches the input of a command: a write, a flush, an end
    of input. *)
Definition touches_input (e : event) : bool :=
  match e with
  | Ev c => match c with
            | StreamWrite _ _ | StreamFlush _ | ShutdownWrite _ => true
            | _ => false
            end
  end.

(** A [close()] of the client [c]. *)
Definition closes_client (c : client) (e : event) : bool :=
  match e with
  | Ev k => match k with ClientClose c' => Nat.eqb c c' | _ => false end
  end.

(** What a [with] block answers once its manager is closed: the
    exception of the close if it raised, the outcome of the body
    otherwise. *)
Definition after_close {A : Type} (closed : result unit) (body : result A)
  : result A :=
  match closed with
  | Ok _ => body
  | Err e => Err e
  end.

(** The four methods that go through SFTP. *)
Definition is_transfer_stmt (s : stmt) : bool :=
  match s with
  | SUpload _ _ _ _ | SWrite _ _ _ _ | SDownload _ _ _ _ | SRead _ _ _ => true
  | _ => false
  end.

Definition is_open_sftp (e : event) : bool :=
  match e with
  | Ev c => match c with OpenSftp _ => true | _ => false end
  end.

Definition is_sftp_close (e : event) : bool :=
  match e with
  | Ev c => match c with SftpClose _ => true | _ => false end
  end.

(** ** Running programs *)

Lemma run_pbind {W A B : Type} (lib : transport W) (p : prog A)
    (f : A -> prog B) (w : W) :
  run lib (pbind p f) w =
    let '(w1, t1, a) := run lib p w in
    let '(w2, t2, b) := run lib (f a) w1 in
    (w2, t1 ++ t2, b).
Proof.
  revert w. induction p as [a | X c k IH]; intros w; simpl.
  - destruct (run lib (f a) w) as [[w2 t2] b]. reflexivity.
  - destruct (lib X c w) as [w1 r]. rewrite IH.
    destruct (run lib (k r) w1) as [[w2 t1] a].
    destruct (run lib (f a) w2) as [[w3 t2] b]. reflexivity.
Qed.

Lemma trace_pbind {W A B : Type} (lib : transport W) (p : prog A)
    (f : A -> prog B) (w : W) :
  trace (run lib (pbind p f) w) =
    trace (run lib p w)
    ++ trace (run lib (f (outcome (run lib p w))) (final_state (run lib p w))).
Proof.
  rewrite run_pbind. destruct (run lib p w) as [[w1 t1] a].
  unfold trace, outcome, final_state. simpl.
  destruct (run lib (f a) w1) as [[w2 t2] b]. reflexivity.
Qed.

Lemma outcome_pbind {W A B : Type} (lib : transport W) (p : prog A)
    (f : A -> prog B) (w : W) :
  outcome (run lib (pbind p f) w) =
    outcome (run lib (f (outcome (run lib p w))) (final_state (run lib p w))).
Proof.
  rewrite run_pbind. destruct (run lib p w) as [[w1 t1] a].
  unfold trace, outcome, final_state. simpl.
  destruct (run lib (f a) w1) as [[w2 t2] b]. reflexivity.
Qed.

Lemma final_state_pbind {W A B : Type} (lib : transport W) (p : prog A)
    (f : A -> prog B) (w : W) :
  final_state (run lib (pbind p f) w) =
    final_state (run lib (f (outcome (run lib p w))) (final_state (run lib p w))).
Proof.
  rewrite run_pbind. destruct (run lib p w) as [[w1 t1] a].
  unfold trace, outcome, final_state. simpl.
  destruct (run lib (f a) w1) as [[w2 t2] b]. reflexivity.
Qed.

Lemma tree_ok_pbind {A B : Type} (P : event -> Prop) (Q' : A -> Prop)
    (Q : B -> Prop) (p : prog A) (f : A -> prog B) :
  tree_ok P Q' p ->
  (forall a, Q' a -> tree_ok P Q (f a)) ->
  tree_ok P Q (pbind p f).
Proof.
  intros Hp Hf. induction p as [a | X c k IH]; simpl in *.
  - apply Hf, Hp.
  - destruct Hp as [Hc Hk]. split; [exact Hc |].
    intros r. apply IH, Hk.
Qed.

Lemma tree_ok_run {W A : Type} (lib : transport W) (P : event -> Prop)
    (Q : A -> Prop) (p : prog A) (w : W) :
  tree_ok P Q p ->
  Forall P (trace (run lib p w)) /\ Q (outcome (run lib p w)).
Proof.
  revert w. induction p as [a | X c k IH]; intros w Hp; simpl in *.
  - split; [constructor | exact Hp].
  - destruct Hp as [Hc Hk]. destruct (lib X c w) as [w1 r].
    specialize (IH r w1 (Hk r)).
    destruct (run lib (k r) w1) as [[w2 t] a]. simpl in *.
    destruct IH as [Ht Ha]. split; [constructor; assumption | exact Ha].
Qed.


(** ** Methods that leave the connection alone *)

Lemma quiet_ret {A : Type} (a : A) : quiet (ret a).
Proof. intros self. reflexivity. Qed.

Lemma quiet_raise {A : Type} (e : exn) : quiet (@raise A e).
Proof. intros self. reflexivity. Qed.

Lemma quiet_ssh_attr (attr : string) : quiet (ssh_attr attr).
Proof. intros self. unfold ssh_attr. destruct (ssh self); reflexivity. Qed.

Lemma quiet_libcall {X : Type} (c : call X) :
  lifecycle (Ev c) = false -> quiet (libcall c).
Proof. intros Hc self. simpl. split; [exact Hc | reflexivity]. Qed.

Lemma quiet_bind {A B : Type} (m : M A) (f : A -> M B) :
  quiet m -> (forall a, quiet (f a)) -> quiet (bind m f).
Proof.
  intros Hm Hf self. unfold bind.
  eapply tree_ok_pbind; [apply Hm |].
  intros [self' r] Hs. simpl in *. subst self'.
  destruct r as [a | e]; [apply Hf | reflexivity].
Qed.

Lemma quiet_try_finally {A : Type} (body : M A) (fin : M unit) :
  quiet body -> quiet fin -> quiet (try_finally body fin).
Proof.
  intros Hb Hf self. unfold try_finally.
  eapply tree_ok_pbind; [apply Hb |].
  intros [self' r] Hs. simpl in *. subst self'.
  eapply tree_ok_pbind; [apply Hf |].
  intros [self' r'] Hs. simpl in *. subst self'.
  destruct r'; reflexivity.
Qed.

Lemma quiet_first_item (commands : list string) : quiet (first_item commands).
Proof. destruct commands; [apply quiet_raise | apply quiet_ret]. Qed.

Ltac unfold_monad :=
  unfold mbind, mret, M_bind, M_ret, with_closing in *.

Ltac quiet_step :=
  first
    [ apply quiet_ret
    | apply quiet_raise
    | apply quiet_ssh_attr
    | apply quiet_first_item
    | apply quiet_libcall; reflexivity
    | apply quiet_try_finally
    | apply quiet_bind; [| intros ?]
    | match goal with
      | |- quiet (match builtin_file ?py with _ => _ end) => destruct py; simpl
      | |- quiet (if ?b then _ else _) => destruct b
      | |- quiet (match ?t with _ => _ end) => destruct t as [[? ?] ?]
      end ].

Ltac quiet_tac := unfold_monad; repeat quiet_step.

Lemma quiet_upload py l r cb cf : quiet (upload py l r cb cf).
Proof. unfold upload. quiet_tac. Qed.

Lemma quiet_write d r m b : quiet (write d r m b).
Proof. unfold write. quiet_tac. Qed.

Lemma quiet_download r l cb cf : quiet (download r l cb cf).
Proof. unfold download. quiet_tac. Qed.

Lemma quiet_read r m b : quiet (read r m b).
Proof. unfold read. quiet_tac. Qed.

Lemma quiet_exec_command c : quiet (exec_command c).
Proof. unfold exec_command. quiet_tac. Qed.

Lemma quiet_exec_commands cs : quiet (exec_commands cs).
Proof. unfold exec_commands. quiet_tac. Qed.

Lemma quiet_exec_stmt py s : quiet (exec_stmt py s).
Proof.
  destruct s; simpl; unfold_monad;
    first [ apply quiet_raise | apply quiet_write
          | apply quiet_bind; [| intros ?; apply quiet_ret] ].
  - apply quiet_upload.
  - apply quiet_download.
  - apply quiet_read.
  - apply quiet_exec_command.
  - apply quiet_exec_commands.
Qed.

Lemma quiet_exec_block py b : quiet (exec_block py b).
Proof.
  induction b as [| s b IH]; simpl; unfold_monad.
  - apply quiet_ret.
  - apply quiet_bind; [apply quiet_exec_stmt | intros _; exact IH].
Qed.

(** ** Counting calls *)

Lemma count_app (f : event -> bool) (t1 t2 : list event) :
  count f (t1 ++ t2) = count f t1 + count f t2.
Proof. unfold count. rewrite filter_app, length_app. reflexivity. Qed.

Lemma count_quiet (f : event -> bool) (t : list event) :
  (forall e, f e = true -> lifecycle e = true) ->
  Forall (fun e => lifecycle e = false) t ->
  count f t = 0.
Proof.
  intros Hf Ht. unfold count.
  induction Ht as [| e t He Ht IH]; [reflexivity |].
  rewrite filter_cons. destruct (decide (f e = true)) as [Hfe | Hfe].
  - apply Hf in Hfe. congruence.
  - exact IH.
Qed.

Lemma is_connect_lifecycle (e : event) : is_connect e = true -> lifecycle e = true.
Proof. destruct e as [X c]. destruct c; simpl; congruence. Qed.

Lemma is_client_close_lifecycle (e : event) :
  is_client_close e = true -> lifecycle e = true.
Proof. destruct e as [X c]. destruct c; simpl; congruence. Qed.

(** ** Entering and leaving the scope *)

Lemma enter_ok_inv {W : Type} (lib : transport W) (w : W) (h u p : string)
    (n : nat) (self : SSHClient) :
  outcome (run lib (__enter__ (__init__ h u p n)) w) = (self, Ok tt) ->
  exists c,
    trace (run lib (__enter__ (__init__ h u p n)) w) = enter_calls c h u p n
    /\ self = mkSSHClient (mkLogin h u p n) (Some c).
Proof.
  unfold __enter__, __init__, enter_calls. unfold_monad. cbn.
  destruct (lib _ NewClient w) as [w1 [c | e]]; cbn; [| discriminate].
  destruct (lib _ (LoadSystemHostKeys c) w1) as [w2 [[] | e]]; cbn;
    [| discriminate].
  destruct (lib _ (SetMissingHostKeyPolicy c AutoAddPolicy) w2)
    as [w3 [[] | e]]; cbn; [| discriminate].
  destruct (lib _ (Connect c h u p n) w3) as [w4 [[] | e]]; cbn;
    [| discriminate].
  intros H. injection H as <-. exists c. split; reflexivity.
Qed.

Lemma run_exit {W : Type} (lib : transport W) (w : W) (info : login)
    (c : client) (exc : option exn) :
  trace (run lib (__exit__ exc (mkSSHClient info (Some c))) w)
    = [Ev (ClientClose c)]
  /\ fst (outcome (run lib (__exit__ exc (mkSSHClient info (Some c))) w))
     = mkSSHClient info (Some c).
Proof.
  unfold __exit__, close. unfold_monad. cbn.
  destruct (lib _ (ClientClose c) w) as [w1 r]. cbn. split; reflexivity.
Qed.

(** C1. For every transport and state in which [__enter__] succeeds and
    every block of transfer and command operations, whether it ends
    normally or with an error: the calls of the scope are those of
    [__enter__], with its single [connect], then the calls of the block,
    none of which opens or closes a connection, then one [close()] of the
    client that was connected, as the last call.  So the scope connects
    exactly once and closes exactly once, after everything else. *)
Theorem scope_connects_once_closes_once {W : Type} (lib : transport W)
    (py : python) (w : W) (h u p : string) (n : nat) (block : list stmt) :
  enter_succeeds lib w h u p n ->
  exists (c : client) (ops : list event),
    trace (run lib (scope h u p n (exec_block py block)) w)
      = enter_calls c h u p n ++ ops ++ [Ev (ClientClose c)]
    /\ Forall (fun e => lifecycle e = false) ops
    /\ count is_connect
         (trace (run lib (scope h u p n (exec_block py block)) w)) = 1
    /\ count is_client_close
         (trace (run lib (scope h u p n (exec_block py block)) w)) = 1.
Proof.
  intros [self Hent].
  destruct (enter_ok_inv lib w h u p n self Hent) as (c & Ht & ->).
  set (self1 := mkSSHClient (mkLogin h u p n) (Some c)) in *.
  assert (Htr : trace (run lib (scope h u p n (exec_block py block)) w)
                = enter_calls c h u p n
                  ++ trace (run lib (exec_block py block self1)
                              (final_state (run lib (__enter__ (__init__ h u p n)) w)))
                  ++ [Ev (ClientClose c)]).
  { unfold scope, py_with. rewrite trace_pbind, Hent, Ht. simpl snd. simpl fst.
    f_equal. unfold try_finally_exc. rewrite trace_pbind. f_equal.
    pose proof (tree_ok_run lib _ _ _
                  (final_state (run lib (__enter__ (__init__ h u p n)) w))
                  (quiet_exec_block py block self1)) as [_ Hself].
    rewrite trace_pbind, Hself.
    destruct (run_exit lib
                (final_state (run lib (exec_block py block self1)
                   (final_state (run lib (__enter__ (__init__ h u p n)) w))))
                (mkLogin h u p n) c
                (exc_of (snd (outcome (run lib (exec_block py block self1)
                   (final_state (run lib (__enter__ (__init__ h u p n)) w)))))))
      as [Hx _].
    fold self1 in Hx. rewrite Hx.
    match goal with
    | |- _ ++ trace (run lib (match ?r with _ => _ end) _) = _ => destruct r
    end; reflexivity. }
  pose proof (tree_ok_run lib _ _ _
                (final_state (run lib (__enter__ (__init__ h u p n)) w))
                (quiet_exec_block py block self1)) as [Hops _].
  exists c, (trace (run lib (exec_block py block self1)
                      (final_state (run lib (__enter__ (__init__ h u p n)) w)))).
  rewrite Htr. split; [reflexivity |]. split; [exact Hops |].
  rewrite !count_app.
  rewrite (count_quiet is_connect _ is_connect_lifecycle Hops).
  rewrite (count_quiet is_client_close _ is_client_close_lifecycle Hops).
  split; reflexivity.
Qed.

Lemma scope_connects_once_closes_once_witness :
  exists (c : client) (ops : list event),
    trace (run fake_lib
             (scope "example.org" "root" "secret" 22
                (exec_block Python2
                   [SExecCommand "echo hello";
                    SWrite "data" "/tmp/f" "w" (-1);
                    SRaise (UserError "stop");
                    SRead "/tmp/f" "r" (-1)])) server)
      = enter_calls c "example.org" "root" "secret" 22
        ++ ops ++ [Ev (ClientClose c)]
    /\ Forall (fun e => lifecycle e = false) ops
    /\ count is_connect
         (trace (run fake_lib
             (scope "example.org" "root" "secret" 22
                (exec_block Python2
                   [SExecCommand "echo hello";
                    SWrite "data" "/tmp/f" "w" (-1);
                    SRaise (UserError "stop");
                    SRead "/tmp/f" "r" (-1)])) server)) = 1
    /\ count is_client_close
         (trace (run fake_lib
             (scope "example.org" "root" "secret" 22
                (exec_block Python2
                   [SExecCommand "echo hello";
                    SWrite "data" "/tmp/f" "w" (-1);
                    SRaise (UserError "stop");
                    SRead "/tmp/f" "r" (-1)])) server)) = 1.
Proof.
  apply (scope_connects_once_closes_once fake_lib Python2 server
           "example.org" "root" "secret" 22).
  eexists. vm_compute. reflexivity.
Defined.

(** C8. When the library's [connect] raises while the scope is being
    entered, the scope ends with that very exception; the calls made are
    those of [__enter__] and no more: one [connect] (no second attempt),
    no call of the block and no [close()]. *)
Theorem connect_failure_propagates {W A : Type} (lib : transport W) (w : W)
    (h u p : string) (n : nat) (body : M A)
    (c : client) (w1 w2 w3 w4 : W) (e : exn) :
  lib _ NewClient w = (w1, Ok c) ->
  lib _ (LoadSystemHostKeys c) w1 = (w2, Ok tt) ->
  lib _ (SetMissingHostKeyPolicy c AutoAddPolicy) w2 = (w3, Ok tt) ->
  lib _ (Connect c h u p n) w3 = (w4, Err e) ->
  run lib (scope h u p n body) w
    = (w4, enter_calls c h u p n,
       (mkSSHClient (mkLogin h u p n) (Some c), Err e))
  /\ count is_connect (trace (run lib (scope h u p n body) w)) = 1
  /\ count is_client_close (trace (run lib (scope h u p n body) w)) = 0.
Proof.
  intros H1 H2 H3 H4.
  assert (Hrun : run lib (scope h u p n body) w
                 = (w4, enter_calls c h u p n,
                    (mkSSHClient (mkLogin h u p n) (Some c), Err e))).
  { unfold scope, py_with, __enter__, __init__. unfold_monad. cbn.
    rewrite H1. cbn. rewrite H2. cbn. rewrite H3. cbn. rewrite H4. cbn.
    reflexivity. }
  rewrite Hrun. split; [reflexivity |]. split; reflexivity.
Qed.

Lemma connect_failure_propagates_witness :
  run fake_lib
    (scope "example.org" "root" "wrong" 22 (exec_command "echo hello")) server
  = (set_next 1 server, enter_calls 0 "example.org" "root" "wrong" 22,
     (mkSSHClient (mkLogin "example.org" "root" "wrong" 22) (Some 0),
      Err AuthenticationException)).
Proof.
  apply (connect_failure_propagates fake_lib server
           "example.org" "root" "wrong" 22 (exec_command "echo hello")
           0 (set_next 1 server) (set_next 1 server) (set_next 1 server)
           (set_next 1 server) AuthenticationException);
    reflexivity.
Defined.

(** ** Commands *)

(** C3. On a session that holds a client, [exec_command] asks the library
    to run the command and returns what it reads from the second and the
    third stream of the answer: the command's standard output, although
    the method names it [stdin], and its standard error.  Nothing is
    written to the command's input. *)
Theorem exec_command_returns_stdout_stderr {W : Type} (lib : transport W)
    (w : W) (self : SSHClient) (c : client) (command : string)
    (t : stream * stream * stream) (w1 w2 w3 : W) (out err : string) :
  ssh self = Some c ->
  lib _ (ExecCommand c command) w = (w1, Ok t) ->
  lib _ (StreamRead (exec_stdout t)) w1 = (w2, Ok out) ->
  lib _ (StreamRead (exec_stderr t)) w2 = (w3, Ok err) ->
  run lib (exec_command command self) w
    = (w3,
       [Ev (ExecCommand c command); Ev (StreamRead (exec_stdout t));
        Ev (StreamRead (exec_stderr t))],
       (self, Ok (out, err))).
Proof.
  intros Hc H1 H2 H3. destruct t as [[i o] e].
  unfold exec_stdout, exec_stderr in *. simpl in H2, H3.
  unfold exec_command, ssh_attr. unfold_monad. cbn. rewrite Hc. cbn.
  rewrite H1. cbn. rewrite H2. cbn. rewrite H3. reflexivity.
Qed.

Lemma exec_command_returns_stdout_stderr_witness :
  outcome (run fake_lib (exec_command "echo hello" session) live)
  = (session, Ok ("hello" +:+ nl, "")).
Proof.
  erewrite (exec_command_returns_stdout_stderr fake_lib live session 0
              "echo hello" (1, 2, 3));
    [reflexivity | reflexivity | reflexivity | reflexivity | reflexivity].
Defined.

(** C10. With an empty list of commands [exec_commands] makes no library
    call at all, on any session and any transport; on a session that
    holds a client the exception it raises is the IndexError of
    [commands[0]]. *)
Theorem exec_commands_empty_raises_index_error {W : Type} (lib : transport W)
    (w : W) (info : login) :
  (forall c : client,
      run lib (exec_commands [] (mkSSHClient info (Some c))) w
      = (w, [], (mkSSHClient info (Some c),
                 Err (IndexError "list index out of range"))))
  /\ (forall self : SSHClient,
         trace (run lib (exec_commands [] self) w) = []
         /\ exists e, snd (outcome (run lib (exec_commands [] self) w)) = Err e).
Proof.
  split.
  - intros c. reflexivity.
  - intros [info' [c |]]; (split; [reflexivity | eexists; reflexivity]).
Qed.

Lemma string_app_assoc (a b c : string) : (a +:+ b) +:+ c = a +:+ (b +:+ c).
Proof.
  induction a as [| x a IH]; [reflexivity |].
  change (String x ((a +:+ b) +:+ c) = String x (a +:+ (b +:+ c))).
  rewrite IH. reflexivity.
Qed.

Lemma string_app_nil_r (a : string) : a +:+ "" = a.
Proof.
  induction a as [| x a IH]; [reflexivity |].
  change (String x (a +:+ "") = String x a). rewrite IH. reflexivity.
Qed.

Lemma join_lines (c1 : string) (rest : list string) :
  join nl (c1 :: rest) +:+ nl = lines_of (c1 :: rest).
Proof.
  unfold join, lines_of. revert c1.
  induction rest as [| c2 rest IH]; intros c1; [reflexivity |].
  change (String.concat nl (c1 :: c2 :: rest))
    with (c1 +:+ nl +:+ String.concat nl (c2 :: rest)).
  change (String.concat "" (map (fun c => c +:+ nl) (c1 :: c2 :: rest)))
    with ((c1 +:+ nl) +:+ "" +:+
          String.concat "" (map (fun c => c +:+ nl) (c2 :: rest))).
  rewrite <- IH, !string_app_assoc. reflexivity.
Qed.

Lemma no_end_of_input (t : list event) :
  forallb (fun e => negb (is_end_of_input e)) t = true ->
  ~ signals_end_of_input t.
Proof.
  unfold signals_end_of_input. intros Hall Hex.
  apply Exists_exists in Hex. destruct Hex as (e & Hin & He).
  rewrite forallb_forall in Hall. apply list_elem_of_In in Hin.
  specialize (Hall e Hin). rewrite He in Hall. discriminate.
Qed.

(** C2, as the code has it.  For a first command and the remaining ones,
    on a session that holds a client and a transport that answers each
    call: one [exec_command] with the first command; one write to its
    input of the remaining commands joined by newlines and ended by one,
    which is those commands line by line when there is one at least
    (and a bare newline when there is none); a write of the [exit] line;
    a flush of the input.  Then standard output and standard error are
    read and returned as a pair.  End of input is not signalled. *)
Theorem exec_commands_pipes_and_flushes {W : Type} (lib : transport W)
    (w : W) (self : SSHClient) (c : client) (c0 : string) (rest : list string)
    (t : stream * stream * stream) (w1 w2 w3 w4 w5 w6 : W) (out err : string) :
  ssh self = Some c ->
  lib _ (ExecCommand c c0) w = (w1, Ok t) ->
  lib _ (StreamWrite (exec_stdin t) (join nl rest +:+ nl)) w1 = (w2, Ok tt) ->
  lib _ (StreamWrite (exec_stdin t) ("exit" +:+ nl)) w2 = (w3, Ok tt) ->
  lib _ (StreamFlush (exec_stdin t)) w3 = (w4, Ok tt) ->
  lib _ (StreamRead (exec_stdout t)) w4 = (w5, Ok out) ->
  lib _ (StreamRead (exec_stderr t)) w5 = (w6, Ok err) ->
  run lib (exec_commands (c0 :: rest) self) w
    = (w6,
       [Ev (ExecCommand c c0);
        Ev (StreamWrite (exec_stdin t) (join nl rest +:+ nl));
        Ev (StreamWrite (exec_stdin t) ("exit" +:+ nl));
        Ev (StreamFlush (exec_stdin t));
        Ev (StreamRead (exec_stdout t));
        Ev (StreamRead (exec_stderr t))],
       (self, Ok (out, err)))
  /\ (rest <> [] -> join nl rest +:+ nl = lines_of rest)
  /\ ~ signals_end_of_input
         (trace (run lib (exec_commands (c0 :: rest) self) w)).
Proof.
  intros Hc H1 H2 H3 H4 H5 H6. destruct t as [[i o] e].
  unfold exec_stdin, exec_stdout, exec_stderr in *. simpl in H2, H3, H4, H5, H6.
  assert (Hrun : run lib (exec_commands (c0 :: rest) self) w
                 = (w6,
                    [Ev (ExecCommand c c0);
                     Ev (StreamWrite i (join nl rest +:+ nl));
                     Ev (StreamWrite i ("exit" +:+ nl));
                     Ev (StreamFlush i); Ev (StreamRead o); Ev (StreamRead e)],
                    (self, Ok (out, err)))).
  { unfold exec_commands, ssh_attr, first_item. unfold_monad.
    change (drop 1 (c0 :: rest)) with rest. unfold join in *. cbn.
    rewrite Hc. cbn. rewrite H1. cbn. rewrite H2. cbn.
    rewrite H3. cbn. rewrite H4. cbn. rewrite H5. cbn. rewrite H6.
    reflexivity. }
  rewrite Hrun. split; [reflexivity |]. split.
  - destruct rest as [| c1 rest]; [congruence | intros _; apply join_lines].
  - apply no_end_of_input. reflexivity.
Qed.

Lemma exec_commands_pipes_and_flushes_witness :
  outcome (run fake_lib (exec_commands ["sh"; "echo one"; "echo two"] session) live)
  = (session, Ok ("one" +:+ nl +:+ "two" +:+ nl, "")).
Proof.
  pose proof (exec_commands_pipes_and_flushes fake_lib live session 0 "sh"
                ["echo one"; "echo two"] (1, 2, 3)) as H.
  edestruct H as (Hrun & _ & _);
    [reflexivity | reflexivity | reflexivity | reflexivity | reflexivity
    | reflexivity | reflexivity |].
  rewrite Hrun. reflexivity.
Defined.

(** C2, against the claim as it is worded: in the run of
    [exec_commands(["sh", "echo one", "echo two"])] on the in-memory
    server, end of input is never signalled on the channel. *)
Lemma exec_commands_never_signals_end_of_input :
  ~ signals_end_of_input
      (trace (run fake_lib
                (exec_commands ["sh"; "echo one"; "echo two"] session) live)).
Proof. apply no_end_of_input. vm_compute. reflexivity. Qed.

(** ** Transfers *)

(** C5. [download] does not look at [callback] and [confirm]: for every
    transport and state, two calls that differ in these arguments only
    have the same run (the same calls, the same final state, the same
    outcome), and no [get] in it is handed a callback. *)
Theorem download_ignores_callback_and_confirm {W : Type} (lib : transport W)
    (w : W) (self : SSHClient) (remote_path local_path : string)
    (cb1 cb2 : option callback) (confirm1 confirm2 : bool) :
  run lib (download remote_path local_path cb1 confirm1 self) w
    = run lib (download remote_path local_path cb2 confirm2 self) w
  /\ Forall (fun e => passes_callback e = false)
       (trace (run lib (download remote_path local_path cb1 confirm1 self) w)).
Proof.
  split; [reflexivity |].
  apply (tree_ok_run lib (fun e => passes_callback e = false) (fun _ => True)).
  unfold download, ssh_attr. unfold_monad. unfold bind, try_finally, libcall.
  destruct (ssh self) as [c |]; simpl; [| exact I].
  split; [reflexivity |]. intros [s | e]; simpl; [| exact I].
  split; [reflexivity |]. intros r. simpl.
  split; [reflexivity |]. intros [[] | e]; simpl; [destruct r |]; exact I.
Qed.

(** C4. Under Python 2, on a session that holds a client and a transport
    that answers the calls: [upload] opens one SFTP channel, makes on it
    the one put that the kind of the local source calls for ([putfo] for
    a [file] object, [put] otherwise) with the remote path, the callback
    and [confirm] as it was given them, closes the channel, and returns
    the attributes the put answered. *)
Theorem upload_dispatches_and_forwards {W : Type} (lib : transport W) (w : W)
    (self : SSHClient) (c : client) (local_path : pyobj) (remote_path : string)
    (cb : option callback) (confirm : bool)
    (s : sftp) (attrs : SFTPAttributes) (w1 w2 w3 : W) :
  ssh self = Some c ->
  lib _ (OpenSftp c) w = (w1, Ok s) ->
  lib _ (put_call s local_path remote_path cb confirm) w1 = (w2, Ok attrs) ->
  lib _ (SftpClose s) w2 = (w3, Ok tt) ->
  run lib (upload Python2 local_path remote_path cb confirm self) w
    = (w3,
       [Ev (OpenSftp c); Ev (put_call s local_path remote_path cb confirm);
        Ev (SftpClose s)],
       (self, Ok attrs)).
Proof.
  intros Hc H1 H2 H3.
  unfold upload, ssh_attr. unfold_monad. cbn. rewrite Hc. cbn.
  rewrite H1. cbn.
  destruct local_path as [path | fd | id]; cbn in H2 |- *;
    rewrite H2; cbn; rewrite H3; reflexivity.
Qed.

Lemma upload_dispatches_and_forwards_witness :
  outcome (run fake_lib
             (upload Python2 (PyStr "notes.txt") "/tmp/notes" (Some 5) true session)
             live)
    = (session, Ok (mkAttrs 11 0 420))
  /\ outcome (run fake_lib
                (upload Python2 (PyFile 3) "/tmp/stream" None false session) live)
     = (session, Ok (mkAttrs 0 0 0)).
Proof.
  split.
  - erewrite (upload_dispatches_and_forwards fake_lib live session 0
                (PyStr "notes.txt") "/tmp/notes" (Some 5) true 1);
      [reflexivity | reflexivity | reflexivity | reflexivity | reflexivity].
  - erewrite (upload_dispatches_and_forwards fake_lib live session 0
                (PyFile 3) "/tmp/stream" None false 1);
      [reflexivity | reflexivity | reflexivity | reflexivity | reflexivity].
Defined.

(** C9. Under Python 3 the name [file] is unbound.  On a session that
    holds a client, once the SFTP channel is open, [upload] raises
    NameError whatever the local source is: the calls are the opening and
    the closing of the channel and nothing between them.  And whatever the
    session and the transport, no run of [upload] contains a put. *)
Theorem upload_python3_raises_name_error {W : Type} (lib : transport W) (w : W)
    (self : SSHClient) (c : client) (local_path : pyobj) (remote_path : string)
    (cb : option callback) (confirm : bool) (s : sftp) (w1 w2 : W) :
  ssh self = Some c ->
  lib _ (OpenSftp c) w = (w1, Ok s) ->
  lib _ (SftpClose s) w1 = (w2, Ok tt) ->
  run lib (upload Python3 local_path remote_path cb confirm self) w
    = (w2, [Ev (OpenSftp c); Ev (SftpClose s)], (self, Err (NameError "file")))
  /\ forall (V : Type) (lib' : transport V) (v : V) (self' : SSHClient),
       count is_transfer
         (trace (run lib' (upload Python3 local_path remote_path cb confirm self') v))
       = 0.
Proof.
  intros Hc H1 H2. split.
  - unfold upload, ssh_attr. unfold_monad. cbn. rewrite Hc. cbn.
    rewrite H1. cbn. rewrite H2. reflexivity.
  - intros V lib' v self'.
    unfold upload, ssh_attr. unfold_monad. cbn.
    destruct (ssh self') as [c' |]; cbn; [| reflexivity].
    destruct (lib' _ (OpenSftp c') v) as [v1 [s' | e]]; cbn; [| reflexivity].
    destruct (lib' _ (SftpClose s') v1) as [v2 [[] | e]]; reflexivity.
Qed.

Lemma upload_python3_raises_name_error_witness :
  outcome (run fake_lib
             (upload Python3 (PyStr "notes.txt") "/tmp/notes" None true session)
             live)
  = (session, Err (NameError "file")).
Proof.
  edestruct (upload_python3_raises_name_error fake_lib live session 0
               (PyStr "notes.txt") "/tmp/notes" None true 1) as [Hrun _];
    [reflexivity | reflexivity | reflexivity |].
  rewrite Hrun. reflexivity.
Defined.

(** ** Outside the scope *)

Lemma scope_final_object {W : Type} (lib : transport W) (py : python) (w : W)
    (h u p : string) (n : nat) (block : list stmt) (self : SSHClient) :
  outcome (run lib (__enter__ (__init__ h u p n)) w) = (self, Ok tt) ->
  fst (outcome (run lib (scope h u p n (exec_block py block)) w)) = self.
Proof.
  intros Hent.
  destruct (enter_ok_inv lib w h u p n self Hent) as (c & _ & Hself).
  unfold scope, py_with. rewrite outcome_pbind, Hent.
  generalize (final_state (run lib (__enter__ (__init__ h u p n)) w)).
  intros w1. cbn [fst snd].
  unfold try_finally_exc. rewrite outcome_pbind.
  pose proof (tree_ok_run lib _ _ _ w1 (quiet_exec_block py block self))
    as [_ Hkeep].
  rewrite outcome_pbind, Hkeep.
  pose proof (run_exit lib (final_state (run lib (exec_block py block self) w1))
                (mkLogin h u p n) c
                (exc_of (snd (outcome (run lib (exec_block py block self) w1)))))
    as [_ Hx].
  rewrite <- Hself in Hx.
  match goal with
  | |- fst (outcome (run lib (match ?r with _ => _ end) _)) = _ => destruct r
  end; exact Hx.
Qed.

(** C6, as the code has it.  An operation called before the scope is
    entered raises AttributeError, for the attribute looked up on None,
    and makes no library call.  After the scope is left the object still
    holds the client that was connected and then closed: the wrapper
    makes no check of its own, an operation is the same tree of library
    calls as inside the scope, and what it raises is the library's
    business. *)
Theorem operations_outside_scope (py : python) (s : stmt) :
  is_operation s = true ->
  (forall (W : Type) (lib : transport W) (w : W) (self : SSHClient),
      ssh self = None ->
      exists attr,
        run lib (exec_stmt py s self) w
        = (w, [], (self, Err (AttributeError "NoneType" attr))))
  /\ (forall (W : Type) (lib : transport W) (w : W) (h u p : string) (n : nat)
             (block : list stmt),
         enter_succeeds lib w h u p n ->
         exists c,
           trace (run lib (__enter__ (__init__ h u p n)) w) = enter_calls c h u p n
           /\ fst (outcome (run lib (scope h u p n (exec_block py block)) w))
              = mkSSHClient (mkLogin h u p n) (Some c)
           /\ exec_stmt py s
                (fst (outcome (run lib (scope h u p n (exec_block py block)) w)))
              = exec_stmt py s (mkSSHClient (mkLogin h u p n) (Some c))).
Proof.
  intros Hop. split.
  - intros W lib w [info o] Hnone. simpl in Hnone. subst o.
    destruct s; try discriminate Hop; eexists; reflexivity.
  - intros W lib w h u p n block [self Hent].
    destruct (enter_ok_inv lib w h u p n self Hent) as (c & Ht & Hself).
    exists c. rewrite (scope_final_object lib py w h u p n block self Hent).
    subst self. split; [exact Ht |]. split; reflexivity.
Qed.

Lemma operations_outside_scope_witness :
  exists attr,
    run fake_lib (exec_stmt Python2 (SExecCommand "ls") (__init__ "example.org" "root" "secret" 22))
      server
    = (server, [], (__init__ "example.org" "root" "secret" 22,
                    Err (AttributeError "NoneType" attr))).
Proof.
  destruct (operations_outside_scope Python2 (SExecCommand "ls") eq_refl)
    as [Hbefore _].
  apply Hbefore. reflexivity.
Defined.

(** C6, against the claim as it is worded: on the recording double, a
    scope is entered and left, and [exec_command] called afterwards on
    the same object raises nothing. *)
Lemma exec_command_after_exit_is_not_rejected :
  ~ exists e,
      snd (outcome
             (run mock
                (exec_stmt Python2 (SExecCommand "ls")
                   (fst (outcome (run mock (scope "example.org" "root" "secret" 22
                                              (exec_block Python2 [])) 0))))
                (final_state (run mock (scope "example.org" "root" "secret" 22
                                          (exec_block Python2 [])) 0))))
      = Err e.
Proof. intros [e He]. vm_compute in He. discriminate He. Qed.

(** On the in-memory server, which like paramiko drops the transport at
    [close()], the same call after the scope raises from inside the
    library: the AttributeError of a lookup on the missing transport. *)
Example exec_command_after_exit_on_server :
  snd (outcome
         (run fake_lib
            (exec_command "ls"
               (fst (outcome (run fake_lib (scope "example.org" "root" "secret" 22
                                              (exec_block Python2 [])) server))))
            (final_state (run fake_lib (scope "example.org" "root" "secret" 22
                                          (exec_block Python2 [])) server))))
  = Err (AttributeError "NoneType" "open_session").
Proof. vm_compute. reflexivity. Qed.

(** ** Remote files *)

Lemma overwrite_empty (data : string) : overwrite 0 data "" = data.
Proof.
  unfold overwrite, take_str, drop_str. simpl.
  destruct (String.length data); simpl; apply string_app_nil_r.
Qed.

Lemma drop_str_0 (s : string) : drop_str 0 s = s.
Proof.
  unfold drop_str. rewrite Nat.sub_0_r.
  induction s as [| a s IH]; simpl; [reflexivity | rewrite IH; reflexivity].
Qed.

(** On the in-memory server, [write] with a truncating mode to a path
    whose directory exists leaves exactly [data] at the path, for any
    buffering. *)
Lemma fake_run_write (v : fake) (self : SSHClient) (c : client)
    (data path wmode : string) (bw : Z) :
  ssh self = Some c ->
  c ∈ fk_connected v ->
  dir_exists path v = true ->
  truncating_write wmode = true ->
  exists v' t,
    run fake_lib (write data path wmode bw self) v = (v', t, (self, Ok tt))
    /\ fk_remote v' !! path = Some data
    /\ fk_connected v' = fk_connected v.
Proof.
  intros Hc Hconn Hdir Hmode.
  apply andb_true_iff in Hmode. destruct Hmode as [Hw Hx].
  apply negb_true_iff in Hx.
  destruct v as [vh vp vn vc vs vr vl vo vf vch vst vd].
  simpl in Hconn. unfold dir_exists in Hdir. cbn in Hdir.
  unfold write, ssh_attr. unfold_monad. cbn. rewrite Hc. cbn.
  rewrite (bool_decide_eq_true_2 _ Hconn). cbn.
  rewrite bool_decide_eq_true_2 by set_solver. cbn.
  unfold fake_open, dir_exists. cbn. rewrite Hw, Hx, Hdir. cbn.
  rewrite andb_false_r. cbn.
  unfold fake_write. cbn. rewrite lookup_insert_eq. cbn.
  change ("" +:+ data) with data.
  unfold fake_close_file, flush_handle. cbn.
  destruct (0 <? bw)%Z;
    repeat first
      [ rewrite lookup_insert_eq
      | rewrite overwrite_empty
      | progress cbn
      | match goal with
        | |- context [String.eqb data ""] =>
            destruct (String.eqb_spec data "") as [-> | ?]
        | |- context [if contains "a" wmode then _ else _] =>
            destruct (contains "a" wmode)
        end ];
    (eexists _, _; split; [reflexivity |]; cbn;
     split; [apply lookup_insert_eq | reflexivity]).
Qed.

(** On the in-memory server, [read] with a plain read mode returns the
    whole content of the file at the path. *)
Lemma fake_run_read (v : fake) (self : SSHClient) (c : client)
    (data path rmode : string) (br : Z) :
  ssh self = Some c ->
  c ∈ fk_connected v ->
  plain_read rmode = true ->
  fk_remote v !! path = Some data ->
  outcome (run fake_lib (read path rmode br self) v) = (self, Ok data).
Proof.
  intros Hc Hconn Hmode Hfile.
  apply andb_true_iff in Hmode. destruct Hmode as [Hr Hn].
  apply negb_true_iff in Hn. apply orb_false_iff in Hn. destruct Hn as [Hn Hx].
  apply orb_false_iff in Hn. destruct Hn as [Hw Ha].
  destruct v as [vh vp vn vc vs vr vl vo vf vch vst vd].
  simpl in Hconn, Hfile.
  unfold read, ssh_attr. unfold_monad. cbn. rewrite Hc. cbn.
  rewrite (bool_decide_eq_true_2 _ Hconn). cbn.
  rewrite bool_decide_eq_true_2 by set_solver. cbn.
  unfold fake_open. cbn. rewrite Hw, Hx, Ha, Hr, Hfile. cbn.
  unfold fake_read. cbn. rewrite lookup_insert_eq. cbn.
  rewrite lookup_insert_eq. cbn.
  change (substring 0 (String.length data - 0) data) with (drop_str 0 data).
  rewrite drop_str_0.
  unfold fake_close_file, flush_handle. cbn. rewrite lookup_insert_eq. cbn.
  reflexivity.
Qed.

(** The in-memory server hands back what was written: for a connected
    client, a path whose directory exists, a write mode that truncates
    and a plain read mode, [read] after [write] returns the data. *)
Lemma server_hands_back_what_was_written (v : fake) (self : SSHClient)
    (c : client) (data path wmode rmode : string) (bw br : Z) :
  ssh self = Some c ->
  c ∈ fk_connected v ->
  dir_exists path v = true ->
  matching_modes wmode rmode = true ->
  outcome (run fake_lib (write data path wmode bw self) v) = (self, Ok tt)
  /\ outcome (run fake_lib (read path rmode br self)
                (final_state (run fake_lib (write data path wmode bw self) v)))
     = (self, Ok data).
Proof.
  intros Hc Hconn Hdir Hmodes.
  apply andb_true_iff in Hmodes. destruct Hmodes as [Hwm Hrm].
  destruct (fake_run_write v self c data path wmode bw Hc Hconn Hdir Hwm)
    as (v' & t & Hrun & Hfile & Hconn').
  rewrite Hrun. split; [reflexivity |].
  change (final_state (v', t, (self, Ok tt))) with v'.
  apply (fake_run_read v' self c data path rmode br Hc); auto.
  rewrite Hconn'. exact Hconn.
Qed.




(** The restriction to a truncating write mode matters: appending to a
    file that has content already does not read back as the data. *)
Example append_reads_back_more :
  outcome (run fake_lib (read "/etc/motd" "r" (-1) session)
             (final_state
                (run fake_lib (write "hello" "/etc/motd" "a" (-1) session) live)))
  = (session, Ok "welcomehello").
Proof. vm_compute. reflexivity. Qed.

(** ** Release of SFTP files and channels on every path *)

(** Once the channel and the remote file are open, [write] makes the one
    write and then closes the file and the channel, whatever each of the
    three calls answers.  The outcome is the exception of the channel's
    close, else that of the file's close, else what the write answered:
    a failed write is reported after both are released. *)
Theorem write_releases_file_and_channel {W : Type} (lib : transport W) (w : W)
    (self : SSHClient) (c : client) (data path mode : string) (bufsize : Z)
    (s : sftp) (fp : rfile) (w1 w2 w3 w4 w5 : W) (rw rc rs : result unit) :
  ssh self = Some c ->
  lib _ (OpenSftp c) w = (w1, Ok s) ->
  lib _ (SftpFile s path mode bufsize) w1 = (w2, Ok fp) ->
  lib _ (FileWrite fp data) w2 = (w3, rw) ->
  lib _ (FileClose fp) w3 = (w4, rc) ->
  lib _ (SftpClose s) w4 = (w5, rs) ->
  run lib (write data path mode bufsize self) w
    = (w5,
       [Ev (OpenSftp c); Ev (SftpFile s path mode bufsize);
        Ev (FileWrite fp data); Ev (FileClose fp); Ev (SftpClose s)],
       (self, after_close rs (after_close rc rw))).
Proof.
  intros Hc H1 H2 H3 H4 H5.
  unfold write, ssh_attr. unfold_monad. cbn. rewrite Hc. cbn.
  rewrite H1. cbn. rewrite H2. cbn. rewrite H3. cbn. rewrite H4. cbn.
  destruct rw as [[] | ?], rc as [[] | ?]; cbn; rewrite H5; cbn;
    destruct rs as [[] | ?]; reflexivity.
Qed.

Lemma write_releases_file_and_channel_witness :
  run fake_lib (write "x" "/etc/motd" "r" (-1) session) live
  = (set_next 3 live,
     [Ev (OpenSftp 0); Ev (SftpFile 1 "/etc/motd" "r" (-1));
      Ev (FileWrite 2 "x"); Ev (FileClose 2); Ev (SftpClose 1)],
     (session, Err (IOError "File not open for writing"))).
Proof.
  erewrite (write_releases_file_and_channel fake_lib live session 0
              "x" "/etc/motd" "r" (-1) 1 2);
    [| reflexivity | reflexivity | reflexivity | reflexivity
     | reflexivity | reflexivity].
  vm_compute. reflexivity.
Defined.

(** When the remote file cannot be opened, [write] writes nothing and
    closes no file; the channel is closed all the same and the exception
    of the open is raised, unless the close of the channel raises. *)
Theorem write_open_failure_closes_channel {W : Type} (lib : transport W)
    (w : W) (self : SSHClient) (c : client) (data path mode : string)
    (bufsize : Z) (s : sftp) (e : exn) (w1 w2 w3 : W) (rs : result unit) :
  ssh self = Some c ->
  lib _ (OpenSftp c) w = (w1, Ok s) ->
  lib _ (SftpFile s path mode bufsize) w1 = (w2, Err e) ->
  lib _ (SftpClose s) w2 = (w3, rs) ->
  run lib (write data path mode bufsize self) w
    = (w3,
       [Ev (OpenSftp c); Ev (SftpFile s path mode bufsize); Ev (SftpClose s)],
       (self, after_close rs (Err e))).
Proof.
  intros Hc H1 H2 H3.
  unfold write, ssh_attr. unfold_monad. cbn. rewrite Hc. cbn.
  rewrite H1. cbn. rewrite H2. cbn. rewrite H3. cbn.
  destruct rs as [[] | ?]; reflexivity.
Qed.

Lemma write_open_failure_closes_channel_witness :
  outcome (run fake_lib (write "x" "/no/such" "r+" (-1) session) live)
  = (session, Err (IOError "No such file")).
Proof.
  erewrite (write_open_failure_closes_channel fake_lib live session 0
              "x" "/no/such" "r+" (-1) 1);
    [| reflexivity | reflexivity | reflexivity | reflexivity].
  reflexivity.
Defined.

(** Once the channel and the remote file are open, [read] makes the one
    read and then closes the file and the channel, whatever the three
    calls answer; the data is returned only when both closes succeed. *)
Theorem read_releases_file_and_channel {W : Type} (lib : transport W) (w : W)
    (self : SSHClient) (c : client) (path mode : string) (bufsize : Z)
    (s : sftp) (fp : rfile) (w1 w2 w3 w4 w5 : W)
    (rd : result string) (rc rs : result unit) :
  ssh self = Some c ->
  lib _ (OpenSftp c) w = (w1, Ok s) ->
  lib _ (SftpFile s path mode bufsize) w1 = (w2, Ok fp) ->
  lib _ (FileRead fp) w2 = (w3, rd) ->
  lib _ (FileClose fp) w3 = (w4, rc) ->
  lib _ (SftpClose s) w4 = (w5, rs) ->
  run lib (read path mode bufsize self) w
    = (w5,
       [Ev (OpenSftp c); Ev (SftpFile s path mode bufsize);
        Ev (FileRead fp); Ev (FileClose fp); Ev (SftpClose s)],
       (self, after_close rs (after_close rc rd))).
Proof.
  intros Hc H1 H2 H3 H4 H5.
  unfold read, ssh_attr. unfold_monad. cbn. rewrite Hc. cbn.
  rewrite H1. cbn. rewrite H2. cbn. rewrite H3. cbn. rewrite H4. cbn.
  destruct rd as [? | ?], rc as [[] | ?]; cbn; rewrite H5; cbn;
    destruct rs as [[] | ?]; reflexivity.
Qed.

Lemma read_releases_file_and_channel_witness :
  outcome (run fake_lib (read "/etc/motd" "w" (-1) session) live)
  = (session, Err (IOError "File is not open for reading")).
Proof.
  erewrite (read_releases_file_and_channel fake_lib live session 0
              "/etc/motd" "w" (-1) 1 2);
    [| reflexivity | reflexivity | reflexivity | reflexivity
     | reflexivity | reflexivity].
  vm_compute. reflexivity.
Defined.

(** Once the channel is open, [download] makes one [get] with the two
    paths and no callback and closes the channel whatever the [get]
    answers; it returns what the [get] answered unless the close raises. *)
Theorem download_closes_channel {W : Type} (lib : transport W) (w : W)
    (self : SSHClient) (c : client) (remote_path local_path : string)
    (cb : option callback) (confirm : bool) (s : sftp) (w1 w2 w3 : W)
    (rg : result (option SFTPAttributes)) (rs : result unit) :
  ssh self = Some c ->
  lib _ (OpenSftp c) w = (w1, Ok s) ->
  lib _ (SftpGet s remote_path local_path None) w1 = (w2, rg) ->
  lib _ (SftpClose s) w2 = (w3, rs) ->
  run lib (download remote_path local_path cb confirm self) w
    = (w3,
       [Ev (OpenSftp c); Ev (SftpGet s remote_path local_path None);
        Ev (SftpClose s)],
       (self, after_close rs rg)).
Proof.
  intros Hc H1 H2 H3.
  unfold download, ssh_attr. unfold_monad. cbn. rewrite Hc. cbn.
  rewrite H1. cbn. rewrite H2. cbn.
  destruct rg as [? | ?]; cbn; rewrite H3; cbn;
    destruct rs as [[] | ?]; reflexivity.
Qed.

Lemma download_closes_channel_witness :
  outcome (run fake_lib (download "/no/such" "copy" (Some 4) true session) live)
  = (session, Err (IOError "No such file")).
Proof.
  erewrite (download_closes_channel fake_lib live session 0
              "/no/such" "copy" (Some 4) true 1);
    [| reflexivity | reflexivity | reflexivity | reflexivity].
  reflexivity.
Defined.

(** Under Python 2, once the channel is open, [upload] closes it whatever
    the put answers, and a failed put is raised after the close. *)
Theorem upload_closes_channel {W : Type} (lib : transport W) (w : W)
    (self : SSHClient) (c : client) (local_path : pyobj) (remote_path : string)
    (cb : option callback) (confirm : bool) (s : sftp) (w1 w2 w3 : W)
    (rp : result SFTPAttributes) (rs : result unit) :
  ssh self = Some c ->
  lib _ (OpenSftp c) w = (w1, Ok s) ->
  lib _ (put_call s local_path remote_path cb confirm) w1 = (w2, rp) ->
  lib _ (SftpClose s) w2 = (w3, rs) ->
  run lib (upload Python2 local_path remote_path cb confirm self) w
    = (w3,
       [Ev (OpenSftp c); Ev (put_call s local_path remote_path cb confirm);
        Ev (SftpClose s)],
       (self, after_close rs rp)).
Proof.
  intros Hc H1 H2 H3.
  unfold upload, ssh_attr. unfold_monad. cbn. rewrite Hc. cbn.
  rewrite H1. cbn.
  destruct local_path as [path | fd | id]; cbn in H2 |- *;
    rewrite H2; cbn; destruct rp as [? | ?]; cbn; rewrite H3; cbn;
    destruct rs as [[] | ?]; reflexivity.
Qed.

Lemma upload_closes_channel_witness :
  outcome (run fake_lib
             (upload Python2 (PyOther 9) "/tmp/buf" None true session) live)
  = (session, Err (IOError "not a path")).
Proof.
  erewrite (upload_closes_channel fake_lib live session 0
              (PyOther 9) "/tmp/buf" None true 1);
    [| reflexivity | reflexivity | reflexivity | reflexivity].
  reflexivity.
Defined.

(** ** What the operations leave alone *)

(** On every transport and every session, [exec_command] never writes
    to, flushes or ends the input of the command it starts. *)
Theorem exec_command_never_touches_input {W : Type} (lib : transport W)
    (w : W) (self : SSHClient) (command : string) :
  Forall (fun e => touches_input e = false)
    (trace (run lib (exec_command command self) w)).
Proof.
  apply (tree_ok_run lib (fun e => touches_input e = false) (fun _ => True)).
  unfold exec_command, ssh_attr. unfold_monad. unfold bind, libcall.
  destruct (ssh self) as [c |]; simpl; [| exact I].
  split; [reflexivity |]. intros [[[i o] e] | x]; simpl; [| exact I].
  split; [reflexivity |]. intros [out | x]; simpl; [| exact I].
  split; [reflexivity |]. intros [err | x]; simpl; exact I.
Qed.

(** On every transport, each of the six operations, and a raise, leaves
    the object as it found it (the client it holds and the login
    information), on the error paths too, and makes no call that opens or
    closes the connection. *)
Theorem operations_keep_the_session {W : Type} (lib : transport W) (w : W)
    (py : python) (s : stmt) (self : SSHClient) :
  fst (outcome (run lib (exec_stmt py s self) w)) = self
  /\ count lifecycle (trace (run lib (exec_stmt py s self) w)) = 0.
Proof.
  destruct (tree_ok_run lib _ _ _ w (quiet_exec_stmt py s self)) as [Ht Hs].
  split; [exact Hs |].
  apply count_quiet; [intros e He; exact He | exact Ht].
Qed.

(** ** More on the scope *)

Lemma enter_ok_inv_on {W : Type} (lib : transport W) (w : W)
    (self self' : SSHClient) :
  outcome (run lib (__enter__ self) w) = (self', Ok tt) ->
  exists c,
    trace (run lib (__enter__ self) w)
      = enter_calls c (host (login_info self)) (username (login_info self))
          (password (login_info self)) (port (login_info self))
    /\ self' = mkSSHClient (login_info self) (Some c).
Proof.
  unfold __enter__, enter_calls. unfold_monad. cbn.
  destruct (lib _ NewClient w) as [w1 [c | e]]; cbn; [| discriminate].
  destruct (lib _ (LoadSystemHostKeys c) w1) as [w2 [[] | e]]; cbn;
    [| discriminate].
  destruct (lib _ (SetMissingHostKeyPolicy c AutoAddPolicy) w2)
    as [w3 [[] | e]]; cbn; [| discriminate].
  destruct (lib _ (Connect c _ _ _ _) w3) as [w4 [[] | e]]; cbn;
    [| discriminate].
  intros H. injection H as <-. exists c. split; reflexivity.
Qed.

(** Whatever the transport answers, the calls of [__enter__] are an
    initial part of: a new client, its system host keys loaded, its
    policy for unknown hosts set to AutoAddPolicy, one [connect] with the
    host, user name, password and port the object was built with.  It
    stops at the first call that raises, with that exception: when the
    client cannot be made nothing else is called and the object is
    unchanged; when the host keys or the policy fail no [connect] is
    attempted; and after the [connect] nothing more is called, whether it
    succeeded or raised.  From the second call on the object holds the
    new client. *)
Theorem enter_calls_in_order {W : Type} (lib : transport W) (w : W)
    (self : SSHClient) :
  (exists c,
      trace (run lib (__enter__ self) w)
      `prefix_of`
      enter_calls c (host (login_info self)) (username (login_info self))
        (password (login_info self)) (port (login_info self)))
  /\ (forall (e : exn) (w1 : W),
         lib _ NewClient w = (w1, Err e) ->
         run lib (__enter__ self) w = (w1, [Ev NewClient], (self, Err e)))
  /\ (forall (c : client) (e : exn) (w1 w2 : W),
         lib _ NewClient w = (w1, Ok c) ->
         lib _ (LoadSystemHostKeys c) w1 = (w2, Err e) ->
         run lib (__enter__ self) w
         = (w2, [Ev NewClient; Ev (LoadSystemHostKeys c)],
            (mkSSHClient (login_info self) (Some c), Err e)))
  /\ (forall (c : client) (e : exn) (w1 w2 w3 : W),
         lib _ NewClient w = (w1, Ok c) ->
         lib _ (LoadSystemHostKeys c) w1 = (w2, Ok tt) ->
         lib _ (SetMissingHostKeyPolicy c AutoAddPolicy) w2 = (w3, Err e) ->
         run lib (__enter__ self) w
         = (w3,
            [Ev NewClient; Ev (LoadSystemHostKeys c);
             Ev (SetMissingHostKeyPolicy c AutoAddPolicy)],
            (mkSSHClient (login_info self) (Some c), Err e)))
  /\ (forall (c : client) (r : result unit) (w1 w2 w3 w4 : W),
         lib _ NewClient w = (w1, Ok c) ->
         lib _ (LoadSystemHostKeys c) w1 = (w2, Ok tt) ->
         lib _ (SetMissingHostKeyPolicy c AutoAddPolicy) w2 = (w3, Ok tt) ->
         lib _ (Connect c (host (login_info self)) (username (login_info self))
                  (password (login_info self)) (port (login_info self))) w3
           = (w4, r) ->
         run lib (__enter__ self) w
         = (w4,
            enter_calls c (host (login_info self)) (username (login_info self))
              (password (login_info self)) (port (login_info self)),
            (mkSSHClient (login_info self) (Some c), r))).
Proof.
  split; [| repeat split].
  - unfold __enter__, enter_calls. unfold_monad. cbn.
    destruct (lib _ NewClient w) as [w1 [c | e]]; cbn;
      [| exists 0; eexists; reflexivity].
    exists c.
    destruct (lib _ (LoadSystemHostKeys c) w1) as [w2 [[] | e]]; cbn;
      [| eexists; reflexivity].
    destruct (lib _ (SetMissingHostKeyPolicy c AutoAddPolicy) w2)
      as [w3 [[] | e]]; cbn; [| eexists; reflexivity].
    destruct (lib _ (Connect c _ _ _ _) w3) as [w4 [[] | e]]; cbn;
      exists []; reflexivity.
  - intros e w1 H1.
    unfold __enter__. unfold_monad. cbn. rewrite H1. reflexivity.
  - intros c e w1 w2 H1 H2.
    unfold __enter__. unfold_monad. cbn. rewrite H1. cbn. rewrite H2.
    reflexivity.
  - intros c e w1 w2 w3 H1 H2 H3.
    unfold __enter__. unfold_monad. cbn. rewrite H1. cbn. rewrite H2. cbn.
    rewrite H3. reflexivity.
  - intros c r w1 w2 w3 w4 H1 H2 H3 H4.
    unfold __enter__, enter_calls. unfold_monad. cbn. rewrite H1. cbn.
    rewrite H2. cbn. rewrite H3. cbn. rewrite H4. cbn.
    destruct r as [[] | e]; reflexivity.
Qed.

Lemma enter_calls_in_order_witness :
  run fake_lib (__enter__ (__init__ "nowhere.org" "root" "secret" 22)) server
  = (set_next 1 server, enter_calls 0 "nowhere.org" "root" "secret" 22,
     (mkSSHClient (mkLogin "nowhere.org" "root" "secret" 22) (Some 0),
      Err (SocketError "No route to host"))).
Proof.
  destruct (enter_calls_in_order fake_lib server
              (__init__ "nowhere.org" "root" "secret" 22))
    as (_ & _ & _ & _ & Hconnect).
  apply (Hconnect 0 (Err (SocketError "No route to host"))
           (set_next 1 server) (set_next 1 server) (set_next 1 server)
           (set_next 1 server));
    reflexivity.
Defined.

(** When [__enter__] succeeds, the [with] statement ends as its block
    did, with the value of its last statement or the exception raised in
    it, unless the [close()] of [__exit__] raises: an exception of the
    block is never swallowed. *)
Theorem scope_ends_as_block {W : Type} (lib : transport W) (py : python)
    (w : W) (h u p : string) (n : nat) (block : list stmt) (self : SSHClient) :
  outcome (run lib (__enter__ (__init__ h u p n)) w) = (self, Ok tt) ->
  snd (outcome (run lib (scope h u p n (exec_block py block)) w))
  = after_close
      (snd (outcome
              (run lib (close self)
                 (final_state
                    (run lib (exec_block py block self)
                       (final_state (run lib (__enter__ (__init__ h u p n)) w)))))))
      (snd (outcome
              (run lib (exec_block py block self)
                 (final_state (run lib (__enter__ (__init__ h u p n)) w))))).
Proof.
  intros Hent.
  unfold scope, py_with. rewrite outcome_pbind, Hent.
  generalize (final_state (run lib (__enter__ (__init__ h u p n)) w)).
  intros w1. cbn [fst snd].
  unfold try_finally_exc. rewrite outcome_pbind.
  pose proof (tree_ok_run lib _ _ _ w1 (quiet_exec_block py block self))
    as [_ Hkeep].
  rewrite outcome_pbind, Hkeep. unfold __exit__.
  destruct (snd (outcome (run lib (close self) _))) as [[] | e]; reflexivity.
Qed.

Lemma scope_ends_as_block_witness :
  snd (outcome
         (run fake_lib
            (scope "example.org" "root" "secret" 22
               (exec_block Python2
                  [SExecCommand "echo hello"; SRaise (UserError "stop")]))
            server))
  = Err (UserError "stop").
Proof.
  rewrite (scope_ends_as_block fake_lib Python2 server
             "example.org" "root" "secret" 22
             [SExecCommand "echo hello"; SRaise (UserError "stop")] session);
    [| vm_compute; reflexivity].
  vm_compute. reflexivity.
Defined.

Lemma scope_on_block {W : Type} (lib : transport W) (py : python) (w : W)
    (self : SSHClient) (c : client) (block : list stmt) :
  outcome (run lib (__enter__ self) w)
    = (mkSSHClient (login_info self) (Some c), Ok tt) ->
  trace (run lib (scope_on self (exec_block py block)) w)
    = trace (run lib (__enter__ self) w)
      ++ trace (run lib (exec_block py block
                           (mkSSHClient (login_info self) (Some c)))
                  (final_state (run lib (__enter__ self) w)))
      ++ [Ev (ClientClose c)]
  /\ fst (outcome (run lib (scope_on self (exec_block py block)) w))
     = mkSSHClient (login_info self) (Some c).
Proof.
  intros Hent. set (self1 := mkSSHClient (login_info self) (Some c)) in *.
  unfold scope_on, py_with. rewrite trace_pbind, outcome_pbind, Hent.
  generalize (final_state (run lib (__enter__ self) w)). intros w1.
  cbn [fst snd]. unfold try_finally_exc.
  rewrite trace_pbind, outcome_pbind.
  pose proof (tree_ok_run lib _ _ _ w1 (quiet_exec_block py block self1))
    as [_ Hkeep].
  rewrite trace_pbind, outcome_pbind, Hkeep.
  destruct (run_exit lib (final_state (run lib (exec_block py block self1) w1))
              (login_info self) c
              (exc_of (snd (outcome (run lib (exec_block py block self1) w1)))))
    as [Hx Hs].
  fold self1 in Hx, Hs. rewrite Hx.
  destruct (snd (outcome (run lib (__exit__ _ self1) _))) as [[] | e];
    (split; [reflexivity | exact Hs]).
Qed.

(** A block that calls [close()] itself has the client closed twice: once
    by the block and once more by [__exit__], whatever the first close
    answered. *)
Theorem close_in_block_closes_twice {W : Type} (lib : transport W) (w : W)
    (h u p : string) (n : nat) :
  enter_succeeds lib w h u p n ->
  exists c,
    trace (run lib (scope h u p n close) w)
      = enter_calls c h u p n ++ [Ev (ClientClose c); Ev (ClientClose c)]
    /\ count is_client_close (trace (run lib (scope h u p n close) w)) = 2.
Proof.
  intros [self Hent].
  destruct (enter_ok_inv lib w h u p n self Hent) as (c & Ht & ->).
  exists c.
  assert (Htr : trace (run lib (scope h u p n close) w)
                = enter_calls c h u p n
                  ++ [Ev (ClientClose c); Ev (ClientClose c)]).
  { unfold scope, py_with. rewrite trace_pbind, Hent, Ht.
    generalize (final_state (run lib (__enter__ (__init__ h u p n)) w)).
    intros w1. cbn [fst snd]. f_equal.
    unfold try_finally_exc, __exit__, close, ssh_attr. unfold_monad. cbn.
    destruct (lib _ (ClientClose c) w1) as [w2 [[] | e]]; cbn;
      destruct (lib _ (ClientClose c) w2) as [w3 [[] | e']]; reflexivity. }
  rewrite Htr. split; reflexivity.
Qed.

Lemma close_in_block_closes_twice_witness :
  exists c,
    trace (run fake_lib (scope "example.org" "root" "secret" 22 close) server)
      = enter_calls c "example.org" "root" "secret" 22
        ++ [Ev (ClientClose c); Ev (ClientClose c)]
    /\ count is_client_close
         (trace (run fake_lib (scope "example.org" "root" "secret" 22 close)
                   server)) = 2.
Proof.
  apply (close_in_block_closes_twice fake_lib server
           "example.org" "root" "secret" 22).
  eexists. vm_compute. reflexivity.
Defined.

(** Entering the same object again inside its own scope: the second
    [__enter__] overwrites the client held.  Both [__exit__]s then close
    the second client, and the first one, when it is another object, is
    never closed. *)
Theorem nested_scope_leaks_first_client {W : Type} (lib : transport W)
    (py : python) (w : W) (h u p : string) (n : nat) (block : list stmt)
    (c1 c2 : client) :
  outcome (run lib (__enter__ (__init__ h u p n)) w)
    = (mkSSHClient (mkLogin h u p n) (Some c1), Ok tt) ->
  outcome (run lib (__enter__ (mkSSHClient (mkLogin h u p n) (Some c1)))
             (final_state (run lib (__enter__ (__init__ h u p n)) w)))
    = (mkSSHClient (mkLogin h u p n) (Some c2), Ok tt) ->
  c1 <> c2 ->
  exists ops,
    trace (run lib
             (scope h u p n (fun self => scope_on self (exec_block py block))) w)
      = enter_calls c1 h u p n ++ enter_calls c2 h u p n ++ ops
        ++ [Ev (ClientClose c2); Ev (ClientClose c2)]
    /\ Forall (fun e => lifecycle e = false) ops
    /\ count (closes_client c1)
         (trace (run lib
                   (scope h u p n
                      (fun self => scope_on self (exec_block py block))) w))
       = 0.
Proof.
  intros Hent1 Hent2 Hne.
  destruct (enter_ok_inv lib w h u p n _ Hent1) as (c & Ht1 & Hc).
  injection Hc as <-.
  set (self1 := mkSSHClient (mkLogin h u p n) (Some c1)) in *.
  set (w1 := final_state (run lib (__enter__ (__init__ h u p n)) w)) in *.
  destruct (enter_ok_inv_on lib w1 self1 _ Hent2) as (c & Ht2 & Hc).
  injection Hc as <-.
  change (trace (run lib (__enter__ self1) w1) = enter_calls c2 h u p n) in Ht2.
  destruct (scope_on_block lib py w1 self1 c2 block Hent2) as [Hin Hobj].
  simpl login_info in Hin, Hobj. rewrite Ht2 in Hin.
  set (self2 := mkSSHClient (mkLogin h u p n) (Some c2)) in *.
  pose proof (tree_ok_run lib _ _ _ (final_state (run lib (__enter__ self1) w1))
                (quiet_exec_block py block self2)) as [Hops _].
  set (ops := trace (run lib (exec_block py block self2)
                       (final_state (run lib (__enter__ self1) w1)))) in *.
  exists ops.
  assert (Htr : trace (run lib
                         (scope h u p n
                            (fun self => scope_on self (exec_block py block))) w)
                = enter_calls c1 h u p n ++ enter_calls c2 h u p n ++ ops
                  ++ [Ev (ClientClose c2); Ev (ClientClose c2)]).
  { unfold scope, py_with at 1. rewrite trace_pbind, Hent1, Ht1.
    fold w1. cbn [fst snd]. f_equal.
    unfold try_finally_exc. rewrite trace_pbind. fold self1. rewrite Hin.
    rewrite trace_pbind, Hobj.
    destruct (run_exit lib
                (final_state (run lib (scope_on self1 (exec_block py block)) w1))
                (mkLogin h u p n) c2
                (exc_of (snd (outcome
                   (run lib (scope_on self1 (exec_block py block)) w1)))))
      as [Hx _].
    fold self2 in Hx. rewrite Hx.
    rewrite <- !app_assoc. do 2 f_equal.
    match goal with
    | |- context [run lib (match ?r with _ => _ end) _] => destruct r
    end; reflexivity. }
  rewrite Htr. split; [reflexivity |]. split; [exact Hops |].
  rewrite !count_app.
  rewrite (count_quiet (closes_client c1) ops); [| | exact Hops].
  - assert (Hneq : Nat.eqb c1 c2 = false) by (apply Nat.eqb_neq; exact Hne).
    unfold count, enter_calls.
    repeat (rewrite filter_cons; simpl closes_client; rewrite ?Hneq;
            destruct (decide (false = true)) as [? | _]; [discriminate |]).
    reflexivity.
  - intros [X k]; destruct k; simpl; congruence.
Qed.

Lemma nested_scope_leaks_first_client_witness :
  exists ops,
    trace (run fake_lib
             (scope "example.org" "root" "secret" 22
                (fun self => scope_on self
                               (exec_block Python2 [SExecCommand "echo hi"])))
             server)
      = enter_calls 0 "example.org" "root" "secret" 22
        ++ enter_calls 1 "example.org" "root" "secret" 22 ++ ops
        ++ [Ev (ClientClose 1); Ev (ClientClose 1)]
    /\ Forall (fun e => lifecycle e = false) ops
    /\ count (closes_client 0)
         (trace (run fake_lib
                   (scope "example.org" "root" "secret" 22
                      (fun self => scope_on self
                                     (exec_block Python2 [SExecCommand "echo hi"])))
                   server))
       = 0.
Proof.
  apply (nested_scope_leaks_first_client fake_lib Python2 server
           "example.org" "root" "secret" 22 [SExecCommand "echo hi"] 0 1).
  - vm_compute. reflexivity.
  - vm_compute. reflexivity.
  - lia.
Defined.

(** On a session that holds a client, each of the four SFTP methods asks
    for exactly one channel.  When the library refuses it, that exception
    is raised and nothing else is called.  When the library grants it, the
    method's calls start with the opening and end with the one closing of
    that channel, whatever the calls between them answer, under either
    interpreter: no channel outlives the call that opened it. *)
Theorem transfer_closes_what_it_opens {W : Type} (lib : transport W) (w : W)
    (py : python) (s : stmt) (self : SSHClient) (c : client) :
  ssh self = Some c ->
  is_transfer_stmt s = true ->
  (forall (e : exn) (w1 : W),
      lib _ (OpenSftp c) w = (w1, Err e) ->
      run lib (exec_stmt py s self) w = (w1, [Ev (OpenSftp c)], (self, Err e)))
  /\ (forall (sf : sftp) (w1 : W),
         lib _ (OpenSftp c) w = (w1, Ok sf) ->
         head (trace (run lib (exec_stmt py s self) w)) = Some (Ev (OpenSftp c))
         /\ last (trace (run lib (exec_stmt py s self) w))
            = Some (Ev (SftpClose sf))
         /\ count is_open_sftp (trace (run lib (exec_stmt py s self) w)) = 1
         /\ count is_sftp_close (trace (run lib (exec_stmt py s self) w)) = 1).
Proof.
  intros Hc Hs. split.
  - intros e w1 H1.
    destruct s; try discriminate Hs; simpl;
      unfold upload, write, download, read, ssh_attr; unfold_monad; cbn;
      rewrite Hc; cbn; rewrite H1; reflexivity.
  - intros sf w1 H1.
    destruct s as [l r cb cf | d r m b | r l cb cf | r m b | | |];
      try discriminate Hs; simpl;
      unfold upload, write, download, read, ssh_attr; unfold_monad; cbn;
      rewrite Hc; cbn; rewrite H1; cbn.
    + destruct py; cbn; [destruct l; cbn |];
        repeat match goal with
               | |- context [lib ?X ?k ?v] =>
                   destruct (lib X k v) as [? [? | ?]]; cbn
               end;
        repeat split; reflexivity.
    + repeat match goal with
             | |- context [lib ?X ?k ?v] =>
                 destruct (lib X k v) as [? [? | ?]]; cbn
             end;
        repeat split; reflexivity.
    + repeat match goal with
             | |- context [lib ?X ?k ?v] =>
                 destruct (lib X k v) as [? [? | ?]]; cbn
             end;
        repeat split; reflexivity.
    + repeat match goal with
             | |- context [lib ?X ?k ?v] =>
                 destruct (lib X k v) as [? [? | ?]]; cbn
             end;
        repeat split; reflexivity.
Qed.

Lemma transfer_closes_what_it_opens_witness :
  head (trace (run fake_lib
                 (exec_stmt Python3 (SUpload (PyStr "notes.txt") "/tmp/n" None true)
                    session) live))
    = Some (Ev (OpenSftp 0))
  /\ last (trace (run fake_lib
                    (exec_stmt Python3
                       (SUpload (PyStr "notes.txt") "/tmp/n" None true)
                       session) live))
     = Some (Ev (SftpClose 1))
  /\ count is_open_sftp
       (trace (run fake_lib
                 (exec_stmt Python3 (SUpload (PyStr "notes.txt") "/tmp/n" None true)
                    session) live)) = 1
  /\ count is_sftp_close
       (trace (run fake_lib
                 (exec_stmt Python3 (SUpload (PyStr "notes.txt") "/tmp/n" None true)
                    session) live)) = 1.
Proof.
  destruct (transfer_closes_what_it_opens fake_lib live Python3
              (SUpload (PyStr "notes.txt") "/tmp/n" None true) session 0
              eq_refl eq_refl) as [_ Hopen].
  apply (Hopen 1 (set_next 2 (set_sftps {[1]} live))).
  vm_compute. reflexivity.
Defined.

Lemma enter_keeps_login {W : Type} (lib : transport W) (w : W)
    (self : SSHClient) :
  login_info (fst (outcome (run lib (__enter__ self) w))) = login_info self.
Proof.
  unfold __enter__. unfold_monad. cbn.
  destruct (lib _ NewClient w) as [w1 [c | e]]; cbn; [| reflexivity].
  destruct (lib _ (LoadSystemHostKeys c) w1) as [w2 [[] | e]]; cbn;
    [| reflexivity].
  destruct (lib _ (SetMissingHostKeyPolicy c AutoAddPolicy) w2)
    as [w3 [[] | e]]; cbn; [| reflexivity].
  destruct (lib _ (Connect c _ _ _ _) w3) as [w4 [[] | e]]; reflexivity.
Qed.

(** However a [with] statement ends, on any transport, also when
    [__enter__] fails at any of its calls or the block or [close()]
    raises, the object keeps the login information it was built with. *)
Theorem scope_keeps_login_info {W : Type} (lib : transport W) (py : python)
    (w : W) (h u p : string) (n : nat) (block : list stmt) :
  login_info (fst (outcome (run lib (scope h u p n (exec_block py block)) w)))
    = mkLogin h u p n.
Proof.
  pose proof (enter_keeps_login lib w (__init__ h u p n)) as Hk.
  destruct (outcome (run lib (__enter__ (__init__ h u p n)) w))
    as [self [[] | e]] eqn:Hent.
  - rewrite (scope_final_object lib py w h u p n block self Hent). exact Hk.
  - unfold scope, py_with. rewrite outcome_pbind, Hent. exact Hk.
Qed.
